(** * A shallow embedding of [bot.py], the Telegram YouTube downloader bot

    The bot is a set of asyncio coroutines that share one mutable dictionary
    per user ([context.user_data]), one working directory ([downloads/]) and
    the event loop's set of background tasks.  The embedding keeps that shape:

    - Python values, strings and the small pure helpers come first;
    - every coroutine of the source is a program of a free monad over the
      effects the source performs (dictionary reads and writes, file system
      calls, blocking library calls, awaited transport calls, task creation);
    - an executable interpreter runs such programs against a world (the
      dictionaries, the directory, the tasks in flight, the log of calls) and
      an environment that answers the external calls;
    - a scheduler interleaves coroutines at their [await] points, the way the
      event loop does.

    Text is modelled as Rocq strings, that is at the level of ASCII
    characters; the character classes of Python are given for that range, and
    the title sanitiser is also stated for arbitrary classes. *)

From Stdlib Require Import ZArith Ascii String List Lia.
From stdpp Require Import gmap strings list pretty.

Local Open Scope string_scope.
Local Open Scope Z_scope.

(** ** Python strings *)

Module PyStr.

Definition code (c : ascii) : Z := Z.of_N (N_of_ascii c).

(** The newline character, for the literals of the source that hold one. *)
Definition nl : string := String (ascii_of_nat 10) EmptyString.

(** [str.isspace] on one character of the ASCII range: tab, line feed,
    vertical tab, form feed, carriage return, the four separators
    0x1c..0x1f and the space. *)
Definition isspace (c : ascii) : bool :=
  let n := code c in
  ((9 <=? n) && (n <=? 13)) || ((28 <=? n) && (n <=? 31)) || (n =? 32).

Definition isdigit (c : ascii) : bool :=
  let n := code c in (48 <=? n) && (n <=? 57).

(** [str.isalnum] on one character of the ASCII range. *)
Definition isalnum (c : ascii) : bool :=
  let n := code c in
  isdigit c || ((65 <=? n) && (n <=? 90)) || ((97 <=? n) && (n <=? 122)).

Section Classes.
(** Python's classes are tables of the Unicode database; the functions
    that only test membership are written over any such tables. *)
Context {char : Type}.
Variables (is_alnum is_space : char → bool).

(** [s.rstrip()]: drop the longest suffix of whitespace. *)
Fixpoint rstrip (l : list char) : list char :=
  match l with
  | [] => []
  | c :: l' =>
      match rstrip l' with
      | [] => if is_space c then [] else [c]
      | r => c :: r
      end
  end.

(** [s.lstrip()]. *)
Fixpoint lstrip (l : list char) : list char :=
  match l with
  | [] => []
  | c :: l' => if is_space c then lstrip l' else l
  end.

(** bot.py:225
    ["".join([c for c in title if c.isalnum() or c.isspace()]).rstrip()] *)
Definition safe_title_chars (title : list char) : list char :=
  rstrip (filter (λ c, is_alnum c || is_space c = true) title).
End Classes.

Definition chars (s : string) : list ascii := list_ascii_of_string s.
Definition of_chars (l : list ascii) : string := string_of_list_ascii l.

Definition safe_title (title : string) : string :=
  of_chars (safe_title_chars isalnum isspace (chars title)).

(** [int(s)] in base ten: surrounding whitespace, one optional sign, then
    digits, where single underscores may separate digits.  [None] is
    Python's [ValueError]. *)
Definition digit_of (c : ascii) : option Z :=
  if isdigit c then Some (code c - 48) else None.

Fixpoint parse_digits (acc : Z) (after_digit : bool) (l : list ascii)
  : option Z :=
  match l with
  | [] => if after_digit then Some acc else None
  | c :: l' =>
      match digit_of c with
      | Some d => parse_digits (10 * acc + d) true l'
      | None =>
          if Ascii.eqb c "_" && after_digit
          then parse_digits acc false l'
          else None
      end
  end.

Definition int (s : string) : option Z :=
  match rstrip isspace (lstrip isspace (chars s)) with
  | "+"%char :: l => parse_digits 0 false l
  | "-"%char :: l => Z.opp <$> parse_digits 0 false l
  | l => parse_digits 0 false l
  end.

(** [s.split(sep)] for a one-character separator. *)
Fixpoint split_chars (sep : ascii) (cur : list ascii) (l : list ascii)
  : list string :=
  match l with
  | [] => [of_chars (rev cur)]
  | c :: l' =>
      if Ascii.eqb c sep
      then of_chars (rev cur) :: split_chars sep [] l'
      else split_chars sep (c :: cur) l'
  end.

Definition split (sep : ascii) (s : string) : list string :=
  split_chars sep [] (chars s).

(** [s[:-1]] *)
Definition drop_last (s : string) : string :=
  of_chars (removelast (chars s)).

(** [s.startswith(p)] *)
Definition startswith (s p : string) : bool := String.prefix p s.

(** [os.path.join(d, f)] for a relative [f]. *)
Definition path_join (d f : string) : string := d +:+ "/" +:+ f.

(** [os.path.basename] *)
Definition basename (p : string) : string :=
  default p (last (split "/" p)).

(** The format specifications [:d] and [:02d] of an f-string. *)
Definition fmt_d (n : Z) : string := pretty n.
Definition fmt_02d (n : Z) : string :=
  if (0 <=? n) && (n <? 10) then "0" +:+ pretty n else pretty n.

End PyStr.

(** bot.py:40-48 *)
Definition format_duration (seconds : option Z) : string :=
  match seconds with
  | None => "N/A"
  | Some seconds =>
      let (m, s) := (seconds / 60, seconds mod 60) in
      let (h, m) := (m / 60, m mod 60) in
      if 0 <? h
      then PyStr.fmt_d h +:+ ":" +:+ PyStr.fmt_02d m +:+ ":" +:+ PyStr.fmt_02d s
      else PyStr.fmt_02d m +:+ ":" +:+ PyStr.fmt_02d s
  end.



(** ** Python values and exceptions *)

(** The exception classes the source distinguishes in its [except] clauses,
    each with the text [str(e)] shows; [Error] is any other [Exception]
    (network, Telegram, yt-dlp or PIL failures). *)
Inductive exn : Type :=
| ValueError (msg : string)
| IndexError (msg : string)
| KeyError (key : string)
| TypeError (msg : string)
| FileNotFoundError (msg : string)
| Error (msg : string).

Definition str_exn (e : exn) : string :=
  match e with
  | KeyError key => "'" +:+ key +:+ "'"
  | ValueError msg | IndexError msg | TypeError msg
  | FileNotFoundError msg | Error msg => msg
  end.

(** An entry of yt-dlp's search result: a dictionary read with [.get] (the
    key may be missing) and with [[...]] (a missing key raises [KeyError]). *)
Record video : Type := Video {
  title : option string;
  duration : option Z;
  webpage_url : option string;
  thumbnail : option string;
}.

(** What [context.user_data] holds. *)
Inductive value : Type :=
| VNone
| VStr (s : string)
| VInt (n : Z)
| VVideo (v : video)
| VList (l : list video).

#[global] Instance exn_eq_dec : EqDecision exn.
Proof. solve_decision. Defined.
#[global] Instance video_eq_dec : EqDecision video.
Proof. solve_decision. Defined.
#[global] Instance value_eq_dec : EqDecision value.
Proof. solve_decision. Defined.

(** Truth value of an object, as [if x:] and [not x] test it. *)
Definition truthy (v : value) : bool :=
  match v with
  | VNone => false
  | VStr s => negb (bool_decide (s = ""))
  | VInt n => negb (n =? 0)
  | VVideo _ => true
  | VList l => negb (bool_decide (l = []))
  end.

(** [len(x)] *)
Definition py_len (v : value) : exn + Z :=
  match v with
  | VList l => inr (Z.of_nat (length l))
  | VStr s => inr (Z.of_nat (String.length s))
  | VVideo d =>
      inr (Z.of_nat (length (omap id [title d; webpage_url d; thumbnail d])
                     + length (omap id [duration d])))
  | _ => inl (TypeError "object has no len()")
  end.

(** [x[i]] on a list, negative indices counting from the end. *)
Definition py_getitem (v : value) (i : Z) : exn + video :=
  match v with
  | VList l =>
      let n := Z.of_nat (length l) in
      let j := if i <? 0 then i + n else i in
      if (0 <=? j) && (j <? n)
      then match l !! Z.to_nat j with
           | Some x => inr x
           | None => inl (IndexError "list index out of range")
           end
      else inl (IndexError "list index out of range")
  | _ => inl (TypeError "object is not subscriptable")
  end.

(** ** Images, as far as PIL is used *)

Record image : Type := Image {
  img_src : option string;      (* the URL it was fetched from; [None]: a gray [Image.new] *)
  img_size : Z * Z;
}.

(** An image created by [Image.new] on which tiles are pasted. *)
Record canvas : Type := Canvas {
  canvas_color : string;
  canvas_size : Z * Z;
  pasted : list (image * (Z * Z));
}.

Definition image_new (size : Z * Z) (color : string) : canvas :=
  {| canvas_color := color; canvas_size := size; pasted := [] |}.
Definition gray_tile (size : Z * Z) : image :=
  {| img_src := None; img_size := size |}.
Definition resize (img : image) (size : Z * Z) : image :=
  {| img_src := img_src img; img_size := size |}.
Definition paste (c : canvas) (img : image) (at_ : Z * Z) : canvas :=
  {| canvas_color := canvas_color c; canvas_size := canvas_size c;
     pasted := pasted c ++ [(img, at_)] |}.

#[global] Instance image_eq_dec : EqDecision image.
Proof. solve_decision. Defined.
#[global] Instance canvas_eq_dec : EqDecision canvas.
Proof. solve_decision. Defined.

(** ** The calls of the messaging transport *)

(** An inline keyboard: one button (label, callback data) per row. *)
Definition keyboard : Type := list (string * string).

Inductive bot_call : Type :=
| Reply_html (text : string)
| Reply_text (text : string) (reply_markup : keyboard)
| Edit_message_text (chat_id message_id : Z) (text : string)
| Send_photo (chat_id : Z) (photo : string) (caption : string)
| Delete_message (chat_id message_id : Z)
| Answer_callback_query
| Edit_query_message (text : string) (reply_markup : keyboard)
| Send_audio (chat_id : Z) (audio : string) (title_ : string) (duration_ : option Z)
| Send_video (chat_id : Z) (video_ : string) (caption : string) (duration_ : option Z)
| Send_message (chat_id : Z) (text : string).

#[global] Instance bot_call_eq_dec : EqDecision bot_call.
Proof. solve_decision. Defined.

(** The options given to [yt_dlp.YoutubeDL] for a download. *)
Record ydl_opts : Type := Ydl_opts {
  ydl_format : string;
  ydl_postprocessor : option (string * string * string);
  ydl_outtmpl : string;
}.

(** The coroutines handed to [asyncio.create_task]. *)
Inductive task : Type :=
| Schedule_file_deletion (file_path : string) (delay : Z)
| Download_and_send_file (chat_id : Z) (video_info : value)
                         (file_format : value) (quality : string).

#[global] Instance task_eq_dec : EqDecision task.
Proof. solve_decision. Defined.

Inductive log_level : Type := Info | Warning | Err.

(** ** Effects and programs *)

(** What a coroutine of the source does to the outside, indexed by the type
    of the answer.  Only [Await_bot] and [Await_sleep] suspend the coroutine;
    everything else runs without giving the event loop a turn (yt-dlp,
    requests, PIL and the os calls are blocking calls in the source).  A call
    that can raise answers with [exn + _]. *)
Inductive eff : Type → Type :=
| Await_bot (c : bot_call) : eff (exn + Z)
| Await_sleep (delay : Z) : eff unit
| Ud_lookup (key : string) : eff (option value)
| Ud_store (key : string) (v : value) : eff unit
| Ud_clear : eff unit
| Ydl_extract_info (query : string) : eff (exn + option (list video))
| Ydl_download (opts : ydl_opts) (url : string) : eff (exn + unit)
| Fetch_image (url : string) : eff (exn + image)
| Os_path_exists (path : string) : eff bool
| Os_listdir (dir : string) : eff (list string)
| Os_remove (path : string) : eff (exn + unit)
| Image_save (path : string) (c : canvas) : eff unit
| Open_rb (path : string) : eff (exn + unit)
| Create_task (t : task) : eff unit
| Log (level : log_level) (msg : string) : eff unit.

Definition is_await {X} (e : eff X) : bool :=
  match e with
  | Await_bot _ | Await_sleep _ => true
  | _ => false
  end.

Inductive prog (R : Type) : Type :=
| Ret (r : R)
| Vis {X : Type} (e : eff X) (k : X → prog R).
Arguments Ret {R} r.
Arguments Vis {R X} e k.

Fixpoint prog_bind {A B} (m : prog A) (f : A → prog B) : prog B :=
  match m with
  | Ret a => f a
  | Vis e k => Vis e (λ x, prog_bind (k x) f)
  end.

(** A coroutine either returns or lets an exception escape. *)
Definition coro (A : Type) : Type := prog (exn + A).

#[global] Instance coro_ret : MRet coro := λ A a, Ret (inr a).
#[global] Instance coro_bind : MBind coro := λ A B f m,
  prog_bind m (λ r, match r with inl e => Ret (inl e) | inr a => f a end).

Definition raise {A} (e : exn) : coro A := Ret (inl e).
(** An effect that cannot raise. *)
Definition perform {X} (e : eff X) : coro X := Vis e (λ x, Ret (inr x)).
(** An effect whose answer may be an exception, which then propagates. *)
Definition call {X} (e : eff (exn + X)) : coro X := Vis e Ret.
(** A pure computation that may raise. *)
Definition lift {A} (r : exn + A) : coro A := Ret r.

(** [try: body  except Exception as e: handler e]; a handler that only
    catches some classes re-raises the others. *)
Definition try_except {A} (body : coro A) (handler : exn → coro A) : coro A :=
  prog_bind body (λ r, match r with inl e => handler e | inr a => Ret (inr a) end).

(** Runs [body] and hands back how it ended. *)
Definition attempt {A} (body : coro A) : coro (exn + A) :=
  prog_bind body (λ r, Ret (inr r)).

(** [context.user_data.get(key)] and [context.user_data[key]] *)
Definition ud_get (key : string) (default_ : value) : coro value :=
  v ← perform (Ud_lookup key); mret (default default_ v).
Definition ud_item (key : string) : coro value :=
  v ← perform (Ud_lookup key);
  match v with Some v => mret v | None => raise (KeyError key) end.

(** [video[key]] for the two keys the source reads that way. *)
Definition video_item (key : string) (field : video → option string)
  (v : value) : coro string :=
  match v with
  | VVideo d =>
      match field d with Some s => mret s | None => raise (KeyError key) end
  | _ => raise (TypeError "object is not subscriptable")
  end.

(** ** The coroutines of bot.py *)

(** bot.py:24 *)
Definition TEMP_DOWNLOAD_DIR : string := "downloads".

Definition awaiting_video_selection : value := VStr "awaiting_video_selection".

(** bot.py:29-38 *)
Definition schedule_file_deletion (file_path : string) (delay : Z) : coro unit :=
  perform (Log Info ("Scheduling deletion of '" +:+ PyStr.basename file_path
                     +:+ "' in " +:+ PyStr.fmt_d delay +:+ " seconds."));;
  perform (Await_sleep delay);;
  try_except
    (call (Os_remove file_path);;
     perform (Log Info ("Successfully deleted temporary file: "
                        +:+ PyStr.basename file_path)))
    (λ e, match e with
          | FileNotFoundError _ =>
              perform (Log Warning ("File not found for deletion: " +:+ file_path))
          | _ =>
              perform (Log Err ("Error deleting file " +:+ file_path +:+ ": "
                                +:+ str_exn e))
          end).

(** bot.py:51-57 *)
Definition start (mention_html : string) : coro unit :=
  call (Await_bot (Reply_html
    ("👋 Hi " +:+ mention_html +:+ "!" +:+ PyStr.nl +:+ PyStr.nl +:+
     "I'm your friendly YouTube Downloader Bot, now powered by `yt-dlp`."
     +:+ PyStr.nl +:+ PyStr.nl +:+
     "Send me a search query to get started!")));;
  mret tt.

(** bot.py:127-136, the loop over the thumbnail URLs: a missing (or empty)
    URL is skipped, a URL that cannot be fetched or opened gives a gray
    tile. *)
Fixpoint fetch_thumbnails (thumbnail_urls : list (option string))
  (images : list image) : coro (list image) :=
  match thumbnail_urls with
  | [] => mret images
  | url :: rest =>
      match url with
      | None => fetch_thumbnails rest images
      | Some url =>
          if bool_decide (url = "") then fetch_thumbnails rest images
          else
            img ← try_except (call (Fetch_image url))
                    (λ e, perform (Log Err ("Could not process thumbnail "
                                            +:+ url +:+ ": " +:+ str_exn e));;
                          mret (gray_tile (120, 90)));
            fetch_thumbnails rest (images ++ [img])
      end
  end.

(** bot.py:147-149 *)
Definition paste_tiles (img_width img_height : Z) (images : list image)
  (collage : canvas) : canvas :=
  foldl (λ collage '(i, img),
           paste collage (resize img (img_width, img_height))
                 (Z.of_nat i * img_width, 0))
        collage (imap (λ i img, (i, img)) images).

(** bot.py:125-153 *)
Definition create_thumbnail_collage (thumbnail_urls : list (option string))
  : coro string :=
  images ← fetch_thumbnails thumbnail_urls [];
  if bool_decide (images = []) then
    let placeholder := image_new (120 * 5, 90) "gray" in
    let path := PyStr.path_join TEMP_DOWNLOAD_DIR "collage.jpg" in
    perform (Image_save path placeholder);;
    mret path
  else
    let '(img_width, img_height) := (120, 90) in
    let collage :=
      image_new (img_width * Z.of_nat (length images), img_height) "black" in
    let collage := paste_tiles img_width img_height images collage in
    let collage_path := PyStr.path_join TEMP_DOWNLOAD_DIR "collage.jpg" in
    perform (Image_save collage_path collage);;
    mret collage_path.

(** bot.py:94-100, the caption that lists the results. *)
Definition caption_entry (i : nat) (video : video) : string :=
  "*" +:+ PyStr.fmt_d (Z.of_nat i + 1) +:+ ". "
      +:+ default "No Title" (title video) +:+ "*" +:+ PyStr.nl +:+
  "🔗 [Link](" +:+ default "#" (webpage_url video) +:+ ") | ⏳ Duration: "
      +:+ format_duration (duration video) +:+ PyStr.nl +:+ PyStr.nl.

Definition results_caption (results : list video) : string :=
  foldl String.append
        ("👇 *Select one number to download*" +:+ PyStr.nl +:+ PyStr.nl)
        (imap caption_entry results).

(** bot.py:59-123 *)
Definition search_youtube (chat_id : Z) (text : string) : coro unit :=
  let query := text in
  if bool_decide (query = "") then mret tt
  else
    processing_message ← call (Await_bot (Reply_text "🔎 Searching YouTube..." []));
    try_except
      (search_result ← call (Ydl_extract_info query);
       let results := default [] search_result in
       if bool_decide (results = []) then
         call (Await_bot (Edit_message_text chat_id processing_message
                 "❌ No results found. Please try another search term."));;
         mret tt
       else
         perform (Ud_store "search_results" (VList results));;
         let thumbnail_urls := thumbnail <$> results in
         collage_path ← create_thumbnail_collage thumbnail_urls;
         perform (Create_task (Schedule_file_deletion collage_path 120));;
         let message_text := results_caption results in
         call (Open_rb collage_path);;
         sent_message ← call (Await_bot (Send_photo chat_id collage_path message_text));
         perform (Ud_store "results_message_id" (VInt sent_message));;
         call (Await_bot (Delete_message chat_id processing_message));;
         perform (Ud_store "state" awaiting_video_selection))
      (λ e,
         perform (Log Err ("Error during search: " +:+ str_exn e));;
         call (Await_bot (Edit_message_text chat_id processing_message
                 ("An error occurred: " +:+ str_exn e +:+ ". Please try again.")));;
         mret tt).

Definition format_keyboard : keyboard :=
  [("🎵 MP3 (Audio)", "mp3"); ("🎬 MP4 (Video)", "mp4")].

Definition retry_prompt : bot_call :=
  Reply_text "⚠️ Please enter a valid number from the list." [].

(** bot.py:164-188 *)
Definition handle_video_selection (chat_id message_id : Z) (text : string)
  : coro unit :=
  try_except
    (choice ← lift (from_option inr (inl (ValueError "invalid literal for int()"))
                                (PyStr.int text));
     in_range ←
       (if 1 <=? choice then
          results ← ud_get "search_results" (VList []);
          n ← lift (py_len results);
          mret (choice <=? n)
        else mret false);
     if negb in_range then raise (ValueError "")
     else
       results ← ud_item "search_results";
       selected_video ← lift (py_getitem results (choice - 1));
       perform (Ud_store "selected_video" (VVideo selected_video));;
       call (Await_bot (Delete_message chat_id message_id));;
       selected_title ← video_item "title" title (VVideo selected_video);
       sent_message ← call (Await_bot (Reply_text
         ("You selected: *" +:+ selected_title +:+ "*" +:+ PyStr.nl +:+ PyStr.nl
          +:+ "Select download type:") format_keyboard));
       perform (Ud_store "selection_message_id" (VInt sent_message));;
       perform (Ud_store "state" VNone))
    (λ e, match e with
          | ValueError _ | IndexError _ => call (Await_bot retry_prompt);; mret tt
          | _ => raise e
          end).

(** bot.py:155-162 *)
Definition handle_user_response (chat_id message_id : Z) (text : string)
  : coro unit :=
  state ← ud_get "state" VNone;
  if negb (truthy state) then search_youtube chat_id text
  else if bool_decide (state = awaiting_video_selection)
       then handle_video_selection chat_id message_id text
       else mret tt.

(** bot.py:190-206 *)
Definition button_callback_handler (data : string) : coro unit :=
  call (Await_bot Answer_callback_query);;
  perform (Ud_store "format" (VStr data));;
  let keyboard :=
    if bool_decide (data = "mp3")
    then [("128 kbps", "quality_128"); ("320 kbps", "quality_320")]
    else [("360p", "quality_360p"); ("720p (HD)", "quality_720p")] in
  call (Await_bot (Edit_query_message "Select quality:" keyboard));;
  mret tt.

(** bot.py:208-222 *)
Definition quality_button_handler (chat_id : Z) (data : string) : coro unit :=
  call (Await_bot Answer_callback_query);;
  quality ← lift (from_option inr (inl (IndexError "list index out of range"))
                              (PyStr.split "_" data !! 1%nat));
  video_info ← ud_item "selected_video";
  video_title ← video_item "title" title video_info;
  call (Await_bot (Edit_query_message
    ("⏳ Converting '" +:+ video_title +:+ "'... Please wait.") []));;
  file_format ← ud_item "format";
  perform (Create_task (Download_and_send_file chat_id video_info file_format quality)).

(** bot.py:230-247, the options and the expected output path. *)
Definition download_plan (safe_title : string) (file_format : value)
  (quality : string) : ydl_opts * string :=
  let output_template :=
    PyStr.path_join TEMP_DOWNLOAD_DIR (safe_title +:+ ".%(ext)s") in
  if bool_decide (file_format = VStr "mp3") then
    ({| ydl_format := "bestaudio/best";
        ydl_postprocessor := Some ("FFmpegExtractAudio", "mp3", quality);
        ydl_outtmpl := output_template |},
     PyStr.path_join TEMP_DOWNLOAD_DIR (safe_title +:+ ".mp3"))
  else
    let quality_num := PyStr.drop_last quality in
    ({| ydl_format := "bestvideo[height<=" +:+ quality_num
                      +:+ "]+bestaudio/best[height<=" +:+ quality_num +:+ "]/best";
        ydl_postprocessor := None;
        ydl_outtmpl := output_template |},
     PyStr.path_join TEMP_DOWNLOAD_DIR (safe_title +:+ ".mp4")).

(** bot.py:252-261: the path that is sent, after the producer has run. *)
Definition locate_output (output_path safe_title : string) : coro string :=
  found ← perform (Os_path_exists output_path);
  if negb found then
    listing ← perform (Os_listdir TEMP_DOWNLOAD_DIR);
    let actual_filename :=
      List.find (λ f, PyStr.startswith f safe_title) listing in
    match actual_filename with
    | Some f =>
        if negb (bool_decide (f = ""))
        then mret (PyStr.path_join TEMP_DOWNLOAD_DIR f)
        else raise (FileNotFoundError "Downloaded file could not be found.")
    | None => raise (FileNotFoundError "Downloaded file could not be found.")
    end
  else mret output_path.

Definition as_message_id (v : value) : exn + Z :=
  match v with
  | VInt n => inr n
  | _ => inl (Error "Bad Request: message identifier is not specified")
  end.

(** bot.py:274-283 *)
Definition cleanup_messages (chat_id : Z) : coro unit :=
  perform (Log Info ("Cleaning up messages for chat_id " +:+ PyStr.fmt_d chat_id));;
  try_except
    (results_msg_id ← ud_get "results_message_id" VNone;
     selection_msg_id ← ud_get "selection_message_id" VNone;
     (if truthy results_msg_id then
        mid ← lift (as_message_id results_msg_id);
        call (Await_bot (Delete_message chat_id mid));; mret tt
      else mret tt);;
     (if truthy selection_msg_id then
        mid ← lift (as_message_id selection_msg_id);
        call (Await_bot (Delete_message chat_id mid));; mret tt
      else mret tt))
    (λ e, perform (Log Warning ("Could not delete one or more messages: "
                                +:+ str_exn e))).

Definition video_duration (v : value) : option Z :=
  match v with VVideo d => duration d | _ => None end.

(** bot.py:263-287, from the delivery to the end of the [try] block. *)
Definition deliver (chat_id : Z) (video_info file_format : value)
  (safe_title output_path : string) : coro unit :=
  call (Open_rb output_path);;
  (if bool_decide (file_format = VStr "mp3") then
     call (Await_bot (Send_audio chat_id output_path safe_title
                                 (video_duration video_info)))
   else
     call (Await_bot (Send_video chat_id output_path safe_title
                                 (video_duration video_info))));;
  cleanup_messages chat_id;;
  perform (Create_task (Schedule_file_deletion output_path 120));;
  perform Ud_clear.

(** bot.py:289-295, the [except] block, with the value [output_path] has
    when the exception arrives. *)
Definition download_failed (chat_id : Z) (video_title output_path : string)
  (e : exn) : coro unit :=
  perform (Log Err ("Error downloading/sending file: " +:+ str_exn e));;
  call (Await_bot (Send_message chat_id
    ("❌ Failed to download '" +:+ video_title +:+ "'. Error: " +:+ str_exn e)));;
  found ← (if negb (bool_decide (output_path = ""))
           then perform (Os_path_exists output_path)
           else mret false);
  if found : bool then call (Os_remove output_path) else mret tt.

(** bot.py:224-295.  The local [output_path] is assigned before the producer
    runs and once more when another file is adopted; the [except] block sees
    the value of the moment, so the [try] block is cut where that value
    changes. *)
Definition download_and_send_file (chat_id : Z) (video_info file_format : value)
  (quality : string) : coro unit :=
  video_title ← video_item "title" title video_info;
  let safe_title := PyStr.safe_title video_title in
  url ← video_item "webpage_url" webpage_url video_info;
  let '(ydl_opts, output_path) := download_plan safe_title file_format quality in
  produced ← attempt (call (Ydl_download ydl_opts url);;
                      locate_output output_path safe_title);
  match produced with
  | inl e => download_failed chat_id video_title output_path e
  | inr output_path =>
      try_except
        (deliver chat_id video_info file_format safe_title output_path)
        (download_failed chat_id video_title output_path)
  end.

Definition start_task (t : task) : coro unit :=
  match t with
  | Schedule_file_deletion file_path delay =>
      schedule_file_deletion file_path delay
  | Download_and_send_file chat_id video_info file_format quality =>
      download_and_send_file chat_id video_info file_format quality
  end.

(** An update, as the transport delivers it. *)
Inductive update : Type :=
| Command_start (chat_id : Z) (mention_html : string)
| Message (chat_id message_id : Z) (text : string)
| Callback_query (chat_id : Z) (data : string).

Definition update_chat (u : update) : Z :=
  match u with
  | Command_start c _ | Message c _ _ | Callback_query c _ => c
  end.

(** [re.match('^(mp3|mp4)$', data)]: [$] also matches before a final line
    feed. *)
Definition matches_format (data : string) : bool :=
  bool_decide (data ∈ ["mp3"; "mp4"; "mp3" +:+ PyStr.nl; "mp4" +:+ PyStr.nl]).

(** [re.match('^quality_.*$', data)]: the rest holds no line feed, except
    possibly as its last character. *)
Definition matches_quality (data : string) : bool :=
  PyStr.startswith data "quality_" &&
  bool_decide (Forall (λ c, c ≠ ascii_of_nat 10)
                 (removelast (drop 8 (PyStr.chars data)))).

(** bot.py:297-305, the handlers in the order [main] registers them; [None]
    when no handler takes the update. *)
Definition dispatch (u : update) : option (coro unit) :=
  match u with
  | Command_start _ mention_html => Some (start mention_html)
  | Message chat_id message_id text =>
      Some (handle_user_response chat_id message_id text)
  | Callback_query chat_id data =>
      if matches_format data
      then Some (button_callback_handler data)
      else if matches_quality data
           then Some (quality_button_handler chat_id data)
           else None
  end.

(** ** The world the coroutines run in *)

(** What a file of the working directory holds. *)
Inductive file : Type :=
| Picture (c : canvas)
| Media (url : string).

#[global] Instance file_eq_dec : EqDecision file.
Proof. solve_decision. Defined.

Inductive origin : Type :=
| Handler (u : update)
| Background (t : task).

(** A coroutine the event loop knows: the user whose [context] it holds,
    where it comes from, and what is left of it to run. *)
Record thread : Type := Thread {
  owner : Z;
  origin_of : origin;
  code : coro unit;
}.

Record world : Type := World {
  user_data : gmap Z (gmap string value);  (* one dictionary per user *)
  downloads : list (string * file);        (* the directory, in [os.listdir] order *)
  threads : list thread;                   (* handlers and tasks not yet finished *)
  calls : list (Z * bot_call * (exn + Z)); (* transport calls and their answers, oldest first *)
  logs : list (log_level * string);
  finished : list (origin * (exn + unit)); (* how the coroutines that ended have ended *)
  clock : nat;                             (* number of questions put to the environment *)
}.

Definition empty_world : world :=
  {| user_data := ∅; downloads := []; threads := []; calls := []; logs := [];
     finished := []; clock := 0 |}.

(** The answers of everything outside the process.  Each may depend on the
    moment of the question. *)
Record env : Type := Env {
  bot_api : nat → Z → bot_call → exn + Z;
  extract_info : nat → string → exn + option (list video);
  (* the files the producer leaves in the directory, and whether it raised *)
  download : nat → ydl_opts → string → list string * option exn;
  (* the size of the image behind a URL *)
  fetch_image : nat → string → exn + (Z * Z);
  (* a failure of [os.remove] on a file that exists *)
  remove_error : nat → string → option exn;
}.

Definition set_user_data (f : gmap Z (gmap string value) → gmap Z (gmap string value))
  (w : world) : world :=
  {| user_data := f (user_data w); downloads := downloads w; threads := threads w;
     calls := calls w; logs := logs w; finished := finished w; clock := clock w |}.
Definition set_downloads (f : list (string * file) → list (string * file))
  (w : world) : world :=
  {| user_data := user_data w; downloads := f (downloads w); threads := threads w;
     calls := calls w; logs := logs w; finished := finished w; clock := clock w |}.
Definition set_threads (f : list thread → list thread) (w : world) : world :=
  {| user_data := user_data w; downloads := downloads w; threads := f (threads w);
     calls := calls w; logs := logs w; finished := finished w; clock := clock w |}.
Definition add_call (c : Z * bot_call * (exn + Z)) (w : world) : world :=
  {| user_data := user_data w; downloads := downloads w; threads := threads w;
     calls := calls w ++ [c]; logs := logs w; finished := finished w;
     clock := clock w |}.
Definition add_log (l : log_level * string) (w : world) : world :=
  {| user_data := user_data w; downloads := downloads w; threads := threads w;
     calls := calls w; logs := logs w ++ [l]; finished := finished w;
     clock := clock w |}.
Definition add_finished (r : origin * (exn + unit)) (w : world) : world :=
  {| user_data := user_data w; downloads := downloads w; threads := threads w;
     calls := calls w; logs := logs w; finished := finished w ++ [r];
     clock := clock w |}.
Definition tick (w : world) : world :=
  {| user_data := user_data w; downloads := downloads w; threads := threads w;
     calls := calls w; logs := logs w; finished := finished w;
     clock := S (clock w) |}.

(** [context.user_data] of a user: an empty dictionary until something is
    stored. *)
Definition data_of (me : Z) (w : world) : gmap string value :=
  default ∅ (user_data w !! me).

(** The name of a file of the working directory, from its path. *)
Definition in_downloads (path : string) : option string :=
  if PyStr.startswith path "downloads/"
  then Some (PyStr.of_chars (drop 10 (PyStr.chars path)))
  else None.

Definition fs_exists (path : string) (fs : list (string * file)) : bool :=
  match in_downloads path with
  | Some name => bool_decide (name ∈ fs.*1)
  | None => false
  end.

Fixpoint fs_put (name : string) (f : file) (fs : list (string * file))
  : list (string * file) :=
  match fs with
  | [] => [(name, f)]
  | (n, g) :: fs' =>
      if bool_decide (n = name) then (name, f) :: fs'
      else (n, g) :: fs_put name f fs'
  end.

Definition fs_write (path : string) (f : file) (fs : list (string * file))
  : list (string * file) :=
  match in_downloads path with
  | Some name => fs_put name f fs
  | None => fs
  end.

Definition fs_delete (path : string) (fs : list (string * file))
  : list (string * file) :=
  match in_downloads path with
  | Some name => filter (λ p, p.1 ≠ name) fs
  | None => fs
  end.

Definition fs_read (path : string) (fs : list (string * file)) : option file :=
  match in_downloads path with
  | Some name => snd <$> List.find (λ p, bool_decide (p.1 = name)) fs
  | None => None
  end.

Definition no_such_file (path : string) : exn :=
  FileNotFoundError ("[Errno 2] No such file or directory: '" +:+ path +:+ "'").

(** One effect of the coroutine of user [me]. *)
Definition handle (E : env) (me : Z) {X} (e : eff X) (w : world) : X * world :=
  match e in eff X return X * world with
  | Await_bot c =>
      let r := bot_api E (clock w) me c in
      (r, tick (add_call (me, c, r) w))
  | Await_sleep _ => (tt, w)
  | Ud_lookup key => (data_of me w !! key, w)
  | Ud_store key v =>
      (tt, set_user_data (λ m, <[me := <[key := v]> (data_of me w)]> m) w)
  | Ud_clear => (tt, set_user_data (λ m, <[me := ∅]> m) w)
  | Ydl_extract_info query => (extract_info E (clock w) query, tick w)
  | Ydl_download opts url =>
      let '(names, err) := download E (clock w) opts url in
      (match err with Some e => inl e | None => inr tt end,
       tick (set_downloads
               (λ fs, foldl (λ fs name, fs_put name (Media url) fs) fs names) w))
  | Fetch_image url =>
      (match fetch_image E (clock w) url with
       | inl e => inl e
       | inr size => inr {| img_src := Some url; img_size := size |}
       end, tick w)
  | Os_path_exists path => (fs_exists path (downloads w), w)
  | Os_listdir dir =>
      (if bool_decide (dir = TEMP_DOWNLOAD_DIR) then (downloads w).*1 else [], w)
  | Os_remove path =>
      if fs_exists path (downloads w) then
        match remove_error E (clock w) path with
        | Some e => (inl e, tick w)
        | None => (inr tt, tick (set_downloads (fs_delete path) w))
        end
      else (inl (no_such_file path), w)
  | Image_save path c => (tt, set_downloads (fs_write path (Picture c)) w)
  | Open_rb path =>
      (if fs_exists path (downloads w) then inr tt else inl (no_such_file path), w)
  | Create_task t =>
      (tt, set_threads
             (λ ts, (ts ++ [{| owner := me; origin_of := Background t;
                               code := start_task t |}])%list) w)
  | Log level msg => (tt, add_log (level, msg) w)
  end.

(** A coroutine run to its end with nothing running in between. *)
Fixpoint run {R} (E : env) (me : Z) (p : prog R) (w : world) : R * world :=
  match p with
  | Ret r => (r, w)
  | Vis e k => let '(x, w') := handle E me e w in run E me (k x) w'
  end.

(** A coroutine run up to its next [await], which is left at its head. *)
Fixpoint advance {R} (E : env) (me : Z) (p : prog R) (w : world)
  : prog R * world :=
  match p with
  | Ret r => (p, w)
  | Vis e k =>
      if is_await e then (p, w)
      else let '(x, w') := handle E me e w in advance E me (k x) w'
  end.

(** One turn of a coroutine: the effect at its head is performed (the awaited
    call answers), then the coroutine runs on up to its next [await]. *)
Definition resume {R} (E : env) (me : Z) (p : prog R) (w : world)
  : prog R * world :=
  match p with
  | Ret r => (p, w)
  | Vis e k => let '(x, w') := handle E me e w in advance E me (k x) w'
  end.

(** ** The event loop *)

Inductive action : Type :=
| Deliver (u : update)     (* the application takes the next update *)
| Turn (i : nat).          (* the i-th coroutine gets a turn *)

Definition is_handler (t : thread) : bool :=
  match origin_of t with Handler _ => true | Background _ => false end.

(** Updates are processed one after the other: the next update is taken only
    when the handler of the previous one has returned.  Tasks made with
    [asyncio.create_task] are not waited for.  In a private chat the user and
    the chat have the same identifier. *)
Definition step (E : env) (a : action) (w : world) : option world :=
  match a with
  | Deliver u =>
      if existsb is_handler (threads w) then None
      else match dispatch u with
           | Some p =>
               Some (set_threads
                       (λ ts, (ts ++ [{| owner := update_chat u;
                                         origin_of := Handler u;
                                         code := p |}])%list) w)
           | None => Some w
           end
  | Turn i =>
      t ← threads w !! i;
      let '(p, w') := resume E (owner t) (code t) w in
      match p with
      | Ret r =>
          Some (add_finished (origin_of t, r) (set_threads (delete i) w'))
      | _ =>
          Some (set_threads
                  (<[i := {| owner := owner t; origin_of := origin_of t;
                             code := p |}]>) w')
      end
  end.

Fixpoint steps (E : env) (acts : list action) (w : world) : option world :=
  match acts with
  | [] => Some w
  | a :: acts => w' ← step E a w; steps E acts w'
  end.

(** The background downloads of a user that have not finished. *)
Definition is_download_of (user : Z) (t : thread) : bool :=
  match origin_of t with
  | Background (Download_and_send_file _ _ _ _) => bool_decide (owner t = user)
  | _ => false
  end.

Definition downloads_in_flight (user : Z) (w : world) : nat :=
  length (List.filter (is_download_of user) (threads w)).

(** The deletions of a path that have been scheduled and have not run. *)
Definition is_deletion_of (path : string) (t : thread) : bool :=
  match origin_of t with
  | Background (Schedule_file_deletion p _) => bool_decide (p = path)
  | _ => false
  end.

Definition pending_deletions (path : string) (w : world) : list thread :=
  List.filter (is_deletion_of path) (threads w).

(** ** Every path of a coroutine *)

(** An effect together with the answer it got. *)
Inductive obs : Type :=
| Obs {X : Type} (e : eff X) (x : X).

(** [always P tr p]: whatever the answers (of the environment, of the
    dictionary, of the file system), when [p] ends, [P] holds of the effects
    performed (newest first, after those of [tr]) and of the result.  All
    answers being arbitrary, this covers every interleaving with the other
    coroutines. *)
Fixpoint always {R} (P : list obs → R → Prop) (tr : list obs) (p : prog R)
  : Prop :=
  match p with
  | Ret r => P tr r
  | Vis e k => ∀ x, always P (Obs e x :: tr) (k x)
  end.

(** ** Notions used in the statements *)

(** bot.py:128, a thumbnail reference the loop does not skip. *)
Definition usable (url : option string) : bool :=
  match url with
  | Some u => negb (bool_decide (u = ""))
  | None => false
  end.

Definition collage_jpg : string := "downloads/collage.jpg".

(** The tiles of the preview collage in the working directory. *)
Definition collage_tiles (w : world) : option (list (image * (Z * Z))) :=
  match fs_read collage_jpg (downloads w) with
  | Some (Picture c) => Some (pasted c)
  | _ => None
  end.

(** The transport calls made since [w], with their answers. *)
Definition new_calls (w w' : world) : list (Z * bot_call * (exn + Z)) :=
  drop (length (calls w)) (calls w').

Definition answered (r : exn + Z) : bool :=
  match r with inr _ => true | inl _ => false end.

(** Two worlds that differ at most in the clock and the logs. *)
Definition same_but_clock_and_logs (w w' : world) : Prop :=
  user_data w' = user_data w ∧ downloads w' = downloads w
  ∧ threads w' = threads w ∧ calls w' = calls w ∧ finished w' = finished w.

(** The picture [create_thumbnail_collage] saves for the images it has
    gathered (bot.py:138-152). *)
Definition collage_of (images : list image) : canvas :=
  if bool_decide (images = []) then image_new (120 * 5, 90) "gray"
  else paste_tiles 120 90 images
         (image_new (120 * Z.of_nat (length images), 90) "black").

(** The coroutine [asyncio.create_task(schedule_file_deletion(path, delay=120))]
    adds to the event loop, made in the context of user [me]. *)
Definition deletion_thread (me : Z) (path : string) : thread :=
  {| owner := me;
     origin_of := Background (Schedule_file_deletion path 120);
     code := start_task (Schedule_file_deletion path 120) |}.

Definition searching : bot_call := Reply_text "🔎 Searching YouTube..." [].

(** A search by [me] for [q], started in [w], gets its announcement through
    and finds at least one result. *)
Definition search_finds (E : env) (me : Z) (q : string) (w : world) : Prop :=
  q ≠ ""
  ∧ answered (bot_api E (clock w) me searching) = true
  ∧ ∃ results, extract_info E (S (clock w)) q = inr (Some results)
               ∧ results ≠ [].

(** The operations on the directory and the dictionaries are not unfolded
    when a program is run symbolically. *)
#[global] Arguments fs_exists : simpl never.
#[global] Arguments fs_write : simpl never.
#[global] Arguments fs_delete : simpl never.
#[global] Arguments fs_read : simpl never.
#[global] Arguments data_of : simpl never.
#[global] Arguments collage_of : simpl never.
#[global] Arguments start_task : simpl never.
#[global] Arguments results_caption : simpl never.

#[global] Arguments py_getitem : simpl never.
(** The directory after the producer has left the files [names] for [url]
    (see [handle], at [Ydl_download]). *)
Definition produced_in (names : list string) (url : string)
  (fs : list (string * file)) : list (string * file) :=
  foldl (λ fs name, fs_put name (Media url) fs) fs names.

(** The notice of bot.py:291-293. *)
Definition failure_notice (chat_id : Z) (video_title : string) (e : exn)
  : bot_call :=
  Send_message chat_id
    ("❌ Failed to download '" +:+ video_title +:+ "'. Error: " +:+ str_exn e).

#[global] Arguments produced_in : simpl never.
#[global] Arguments download_plan : simpl never.
#[global] Arguments PyStr.safe_title : simpl never.

(** The coroutine [asyncio.create_task(download_and_send_file(...))] adds to
    the event loop (bot.py:214-222). *)
Definition download_thread (me chat_id : Z) (video_info file_format : value)
  (quality : string) : thread :=
  let t := Download_and_send_file chat_id video_info file_format quality in
  {| owner := me; origin_of := Background t; code := start_task t |}.

#[global] Arguments downloads_in_flight : simpl never.
#[global] Arguments pending_deletions : simpl never.

(** ** Sessions that can be restarted *)

(** The dictionary of a user lets a search be started again: either no state
    is stored (a text is then a query), or a selection is awaited and there
    are candidates to select from (after which no state is stored). *)
Definition restartable (d : gmap string value) : Prop :=
  truthy (default VNone (d !! "state")) = false
  ∨ (d !! "state" = Some awaiting_video_selection
     ∧ ∃ v l, d !! "search_results" = Some (VList (v :: l))).

(** What an effect does to the dictionary of the coroutine's user. *)
Definition dict_after (o : obs) (d : gmap string value) : gmap string value :=
  match o with
  | Obs e _ =>
      match e with
      | Ud_store key v => <[key := v]> d
      | Ud_clear => ∅
      | _ => d
      end
  end.

(** The effects that cannot take a dictionary out of the restartable ones:
    all but storing a state that is not falsy and storing candidates that
    are not a non-empty list. *)
Definition harmless (o : obs) : bool :=
  match o with
  | Obs e _ =>
      match e with
      | Ud_store key v =>
          if String.eqb key "state" then negb (truthy v)
          else if String.eqb key "search_results"
               then match v with VList (_ :: _) => true | _ => false end
               else true
      | _ => true
      end
  end.

(** The marks of an error path: an error is logged by one of the [except]
    blocks that end a handler or a task (their messages begin with
    "Error "), or the user is told that the input was not valid, that
    nothing was found or that something failed.  The log of a thumbnail that
    could not be fetched is no mark: the search goes on with a gray tile. *)
Definition is_failure (o : obs) : bool :=
  match o with
  | Obs e _ =>
      match e with
      | Log Err msg => PyStr.startswith msg "Error "
      | Await_bot (Reply_text text _) =>
          PyStr.startswith text "⚠️ Please enter a valid number"
      | Await_bot (Edit_message_text _ _ text) =>
          PyStr.startswith text "❌ No results found"
          || PyStr.startswith text "An error occurred"
      | Await_bot (Send_message _ text) =>
          PyStr.startswith text "❌ Failed to download"
      | _ => false
      end
  end.

(** A path is an error path when an exception escapes or a mark is on it. *)
Definition failed {A} (tr : list obs) (r : exn + A) : bool :=
  match r with inl _ => true | inr _ => existsb is_failure tr end.

(** Every error path of [p] consists of harmless effects. *)
Definition errors_are_harmless {A} (p : coro A) : Prop :=
  always (λ tr r, failed tr r = true → forallb harmless tr = true) [] p.

(** Effects that are harmless and carry no mark. *)
Definition quiet (o : obs) : bool := harmless o && negb (is_failure o).

#[global] Arguments create_thumbnail_collage : simpl never.

(** A dictionary no update can bring back to a search: a selection is
    awaited, and neither candidates nor a selected candidate are stored. *)
Definition stuck (d : gmap string value) : Prop :=
  d !! "state" = Some awaiting_video_selection
  ∧ d !! "search_results" = None
  ∧ d !! "selected_video" = None.

Definition no_results_notice (chat_id message_id : Z) : bot_call :=
  Edit_message_text chat_id message_id
    "❌ No results found. Please try another search term.".

Definition search_error_notice (chat_id message_id : Z) (e : exn) : bot_call :=
  Edit_message_text chat_id message_id
    ("An error occurred: " +:+ str_exn e +:+ ". Please try again.").

(** The keyboard [button_callback_handler] offers for a format
    (bot.py:195-204). *)
Definition quality_keyboard (data : string) : keyboard :=
  if bool_decide (data = "mp3")
  then [("128 kbps", "quality_128"); ("320 kbps", "quality_320")]
  else [("360p", "quality_360p"); ("720p (HD)", "quality_720p")].

(** The delivery call of bot.py:263-272. *)
Definition delivery (chat_id : Z) (v : video) (file_format : value)
  (output_path stem : string) : bot_call :=
  if bool_decide (file_format = VStr "mp3")
  then Send_audio chat_id output_path stem (duration v)
  else Send_video chat_id output_path stem (duration v).

(** [every φ Q p]: on every path of [p], whatever the answers, each effect
    (with its answer) satisfies [φ], and the result satisfies [Q]. *)
Fixpoint every {R} (φ : obs → bool) (Q : R → Prop) (p : prog R) : Prop :=
  match p with
  | Ret r => Q r
  | Vis e k => ∀ x, φ (Obs e x) = true ∧ every φ Q (k x)
  end.

(** A condition on the value a coroutine returns, when it returns one. *)
Definition returns {A} (P : A → Prop) (r : exn + A) : Prop :=
  match r with inl _ => True | inr a => P a end.

Definition anything {A} (_ : A) : Prop := True.

(** The layout of [context.user_data]: the six keys of the source, each with
    the kind of value the source reads back from it; the state is [None] or
    [awaiting_video_selection], the results are a list that is not empty. *)
Definition entry_ok (key : string) (v : value) : bool :=
  if String.eqb key "search_results"
  then match v with VList (_ :: _) => true | _ => false end
  else if String.eqb key "results_message_id"
          || String.eqb key "selection_message_id"
  then match v with VInt _ => true | _ => false end
  else if String.eqb key "selected_video"
  then match v with VVideo _ => true | _ => false end
  else if String.eqb key "format"
  then match v with VStr _ => true | _ => false end
  else if String.eqb key "state"
  then bool_decide (v = VNone) || bool_decide (v = awaiting_video_selection)
  else false.

Definition well_formed (d : gmap string value) : Prop :=
  ∀ key v, d !! key = Some v → entry_ok key v = true.

Definition store_ok (o : obs) : bool :=
  match o with
  | Obs e _ =>
      match e with
      | Ud_store key v => entry_ok key v
      | _ => true
      end
  end.

Definition under_downloads (path : string) : bool :=
  match in_downloads path with Some _ => true | None => false end.

(** A task the source makes: a download, or the deletion of a file of
    [downloads/] after 120 seconds. *)
Definition task_ok (t : task) : bool :=
  match t with
  | Schedule_file_deletion path delay => under_downloads path && (delay =? 120)
  | Download_and_send_file _ _ _ _ => true
  end.

(** What a coroutine does to files: it saves the collage only, removes only
    files of [downloads/], and makes only the tasks above. *)
Definition files_ok (o : obs) : bool :=
  match o with
  | Obs e _ =>
      match e with
      | Image_save path _ => bool_decide (path = collage_jpg)
      | Os_remove path => under_downloads path
      | Create_task t => task_ok t
      | _ => true
      end
  end.

Definition origin_ok (o : origin) : bool :=
  match o with
  | Handler _ => true
  | Background t => task_ok t
  end.

(** Both conditions on an effect. *)
Definition effect_ok (o : obs) : bool := store_ok o && files_ok o.

(** A coroutine the event loop holds: what is left of it only has effects as
    above, and it is a handler or one of the tasks above. *)
Definition thread_ok (t : thread) : Prop :=
  every effect_ok anything (code t) ∧ origin_ok (origin_of t) = true.

Definition sessions_well_formed (w : world) : Prop :=
  ∀ user, well_formed (data_of user w).

Definition invariant (w : world) : Prop :=
  sessions_well_formed w ∧ Forall thread_ok (threads w).

#[global] Arguments under_downloads : simpl never.

(** ** Sample data *)

Module Sample.

Definition lofi : video :=
  {| title := Some "Lofi, Beats!"; duration := Some 185;
     webpage_url := Some "https://y/1"; thumbnail := Some "https://t/1" |}.
Definition jazz : video :=
  {| title := Some "Jazz"; duration := None;
     webpage_url := Some "https://y/2"; thumbnail := None |}.

(** The file a producer that works leaves for an output template. *)
Definition produced (opts : ydl_opts) : string :=
  let t := PyStr.chars (ydl_outtmpl opts) in
  PyStr.of_chars (take (length t - 18) (drop 10 t))
  +:+ (if bool_decide (ydl_postprocessor opts = None) then ".mp4" else ".mp3").

(** An environment in which every call succeeds. *)
Definition fine : env :=
  {| bot_api := λ n _ _, inr (Z.of_nat n + 100);
     extract_info := λ _ _, inr (Some [lofi; jazz]);
     download := λ _ opts _, ([produced opts], None);
     fetch_image := λ _ _, inr (320, 180);
     remove_error := λ _ _, None |}.

(** The world after user 7 has searched for "lofi". *)
Definition searched : world :=
  (run fine 7 (search_youtube 7 "lofi") empty_world).2.

(** ... has then picked the first result, the MP3 format and 128 kbps. *)
Definition selected : world :=
  (run fine 7 (handle_user_response 7 2 "1") searched).2.
Definition chosen : world :=
  (run fine 7 (button_callback_handler "mp3") selected).2.
Definition ready : world :=
  (run fine 7 (quality_button_handler 7 "quality_128") chosen).2.

(** An environment in which the producer raises. *)
Definition producer_fails : env :=
  {| bot_api := bot_api fine;
     extract_info := extract_info fine;
     download := λ _ _ _, ([], Some (Error "HTTP Error 403: Forbidden"));
     fetch_image := fetch_image fine;
     remove_error := remove_error fine |}.

(** An environment in which the producer works and the transport is down. *)
Definition transport_down : env :=
  {| bot_api := λ _ _ _, inl (Error "Timed out");
     extract_info := extract_info fine;
     download := download fine;
     fetch_image := fetch_image fine;
     remove_error := remove_error fine |}.

(** The updates and turns of a user who searches, picks the first result and
    the MP3 format, presses "128 kbps", and presses it again when the first
    download has produced its file and awaits the delivery. *)
Definition press_twice : list action :=
  [Deliver (Message 7 1 "lofi"); Turn 0; Turn 0; Turn 0; Turn 0;
   Deliver (Message 7 2 "1"); Turn 1; Turn 1; Turn 1;
   Deliver (Callback_query 7 "mp3"); Turn 1; Turn 1;
   Deliver (Callback_query 7 "quality_128"); Turn 1; Turn 1;
   Turn 1;
   Deliver (Callback_query 7 "quality_128"); Turn 2; Turn 2;
   Turn 2]%nat.

(** The updates and turns of a user who starts a download and, while it
    runs, a second search: the download ends (and clears the dictionary)
    between the moment the search has stored its results and the moment it
    stores its state.  Every call succeeds. *)
Definition clear_during_search : list action :=
  [Deliver (Message 7 1 "lofi"); Turn 0; Turn 0; Turn 0; Turn 0;
   Deliver (Message 7 2 "1"); Turn 1; Turn 1; Turn 1;
   Deliver (Callback_query 7 "mp3"); Turn 1; Turn 1;
   Deliver (Callback_query 7 "quality_128"); Turn 1; Turn 1;
   Turn 1;
   Deliver (Message 7 3 "jazz"); Turn 2; Turn 2;
   Turn 1; Turn 1; Turn 1;
   Turn 1; Turn 1]%nat.

End Sample.

(** * Properties *)

Example format_duration_hours : format_duration (Some 3725) = "1:02:05".
Proof. vm_compute. reflexivity. Qed.
Example format_duration_minutes : format_duration (Some 185) = "03:05".
Proof. vm_compute. reflexivity. Qed.
Example int_plain : PyStr.int " 3 " = Some 3.
Proof. reflexivity. Qed.
Example int_underscore : PyStr.int "1_0" = Some 10.
Proof. reflexivity. Qed.
Example int_bad_underscore : PyStr.int "1__0" = None.
Proof. reflexivity. Qed.
Example int_words : PyStr.int "lofi beats" = None.
Proof. reflexivity. Qed.
Example split_quality : PyStr.split "_" "quality_720p" = ["quality"; "720p"].
Proof. reflexivity. Qed.
Example safe_title_example :
  PyStr.safe_title "AC/DC - Back In Black (Official)  "
  = "ACDC  Back In Black Official".
Proof. reflexivity. Qed.

(** ** The title sanitiser *)

Section Sanitiser.
Context {char : Type}.
Variables (is_alnum is_space : char → bool).

Lemma rstrip_split (l : list char) :
  ∃ ws, l = (PyStr.rstrip is_space l ++ ws)%list
        ∧ Forall (λ c, is_space c = true) ws.
Proof.
  induction l as [|c l [ws [Hl Hws]]]; [by exists []|].
  simpl. destruct (PyStr.rstrip is_space l) as [|d r] eqn:Hr.
  - destruct (is_space c) eqn:Hc.
    + exists (c :: ws). simpl in Hl. split; [by rewrite Hl at 1|by constructor].
    + exists ws. simpl in *. split; [by rewrite Hl at 1|done].
  - exists ws. split; [|done]. simpl. by rewrite Hl at 1.
Qed.

Lemma rstrip_last (l : list char) (c : char) :
  last (PyStr.rstrip is_space l) = Some c → is_space c = false.
Proof.
  induction l as [|d l IH]; [done|].
  simpl. destruct (PyStr.rstrip is_space l) as [|d' r] eqn:Hr.
  - destruct (is_space d) eqn:Hd; [done|]. simpl. by intros [= <-].
  - intros H. apply IH. by rewrite last_cons_cons in H.
Qed.

Lemma rstrip_sublist (l : list char) : sublist (PyStr.rstrip is_space l) l.
Proof.
  destruct (rstrip_split l) as [ws [Hl _]]. rewrite Hl at 2.
  by apply sublist_inserts_r.
Qed.

(** C9.  The stem derived from a title holds only alphanumeric and whitespace
    characters, all taken from the title in their order; it is the kept
    characters of the title with their trailing whitespace removed, and it
    does not end in whitespace.  The stem is a function of the title, hence
    the same for the same title. *)
Theorem safe_title_sanitised (title : list char) :
  let kept := filter (λ c, is_alnum c || is_space c = true) title in
  let stem := PyStr.safe_title_chars is_alnum is_space title in
  Forall (λ c, is_alnum c || is_space c = true) stem
  ∧ sublist stem title
  ∧ (∃ ws, kept = (stem ++ ws)%list ∧ Forall (λ c, is_space c = true) ws)
  ∧ (∀ c, last stem = Some c → is_space c = false).
Proof.
  intros kept stem. unfold stem, PyStr.safe_title_chars. fold kept.
  assert (Hk : Forall (λ c, is_alnum c || is_space c = true) kept).
  { apply Forall_forall. intros c Hc. unfold kept in Hc.
    by apply list_elem_of_filter in Hc as [Hc _]. }
  repeat split.
  - destruct (rstrip_split kept) as [ws [Hl _]]. rewrite Hl in Hk.
    by apply Forall_app in Hk as [Hk _].
  - etrans; [apply rstrip_sublist|]. apply sublist_filter.
  - apply rstrip_split.
  - apply rstrip_last.
Qed.
End Sanitiser.

(** ** Running programs *)

Lemma run_bind {A B} E me (m : prog A) (f : A → prog B) w :
  run E me (prog_bind m f) w
  = let '(a, w') := run E me m w in run E me (f a) w'.
Proof.
  revert w. induction m as [a|X e k IH]; intros w; [done|].
  simpl. destruct (handle E me e w) as [x w']. apply IH.
Qed.

Lemma run_mbind {A B} E me (m : coro A) (f : A → coro B) w :
  run E me (m ≫= f) w
  = match run E me m w with
    | (inl e, w') => (inl e, w')
    | (inr a, w') => run E me (f a) w'
    end.
Proof.
  unfold mbind, coro_bind. rewrite run_bind.
  by destruct (run E me m w) as [[e|a] w'].
Qed.

Lemma run_try_except {A} E me (m : coro A) (h : exn → coro A) w :
  run E me (try_except m h) w
  = match run E me m w with
    | (inl e, w') => run E me (h e) w'
    | (inr a, w') => (inr a, w')
    end.
Proof.
  unfold try_except. rewrite run_bind.
  by destruct (run E me m w) as [[e|a] w'].
Qed.

(** ** The working directory *)

Lemma fs_put_find name f fs :
  List.find (λ p : string * file, bool_decide (p.1 = name)) (fs_put name f fs)
  = Some (name, f).
Proof.
  induction fs as [|[n g] fs IH]; simpl.
  - by rewrite bool_decide_true.
  - case_bool_decide as Hn; simpl.
    + by rewrite bool_decide_true.
    + by rewrite bool_decide_false.
Qed.

Lemma fs_read_write_collage f fs :
  fs_read collage_jpg (fs_write collage_jpg f fs) = Some f.
Proof.
  unfold fs_read, fs_write.
  change (in_downloads collage_jpg) with (Some "collage.jpg").
  cbv beta iota. by rewrite fs_put_find.
Qed.

(** ** The preview collage *)

Lemma run_fetch_thumbnails E me urls images w :
  ∃ tiles w',
    run E me (fetch_thumbnails urls images) w = (inr (images ++ tiles)%list, w')
    ∧ Forall2 (λ url t, img_src t = None ∧ img_size t = (120, 90) ∨ img_src t = url)
              (List.filter usable urls) tiles
    ∧ same_but_clock_and_logs w w'.
Proof.
  revert images w. induction urls as [|url urls IH]; intros images w.
  - exists [], w. simpl. rewrite app_nil_r. by repeat split.
  - change (List.filter usable (url :: urls))
      with (if usable url then url :: List.filter usable urls
            else List.filter usable urls).
    destruct url as [u|]; [|apply IH].
    cbn [fetch_thumbnails usable].
    destruct (bool_decide (u = "")) eqn:Hu; cbn [negb]; [apply IH|].
    rewrite run_mbind, run_try_except. simpl.
    destruct (fetch_image E (clock w) u) as [e|size]; simpl.
    + destruct (IH (images ++ [gray_tile (120, 90)])%list
                   (add_log (Err, "Could not process thumbnail " +:+ u +:+ ": "
                                  +:+ str_exn e) (tick w)))
        as (tiles & w' & Hrun & Htiles & Hframe).
      exists (gray_tile (120, 90) :: tiles), w'. rewrite Hrun, <- app_assoc.
      repeat split; try apply Hframe. constructor; [by left|done].
    + destruct (IH (images ++ [{| img_src := Some u; img_size := size |}])%list
                   (tick w))
        as (tiles & w' & Hrun & Htiles & Hframe).
      exists ({| img_src := Some u; img_size := size |} :: tiles), w'.
      rewrite Hrun, <- app_assoc.
      repeat split; try apply Hframe. constructor; [by right|done].
Qed.

Lemma pasted_foldl (wd ht : Z) (l : list (nat * image)) (c : canvas) :
  pasted (foldl (λ collage '(i, img),
                   paste collage (resize img (wd, ht)) (Z.of_nat i * wd, 0)) c l)
  = (pasted c
     ++ ((λ '(i, img), (resize img (wd, ht), (Z.of_nat i * wd, 0))) <$> l))%list.
Proof.
  revert c. induction l as [|[i img] l IH]; intros c; simpl.
  - by rewrite app_nil_r.
  - rewrite IH. simpl. by rewrite <- app_assoc.
Qed.

Lemma pasted_paste_tiles (images : list image) (c : canvas) :
  pasted (paste_tiles 120 90 images c)
  = (pasted c
     ++ imap (λ i img, (resize img (120, 90), (Z.of_nat i * 120, 0))) images)%list.
Proof.
  unfold paste_tiles. rewrite pasted_foldl. f_equal.
  by rewrite fmap_imap.
Qed.

Lemma run_create_thumbnail_collage E me urls w :
  ∃ images w1,
    run E me (create_thumbnail_collage urls) w
    = (inr collage_jpg,
       set_downloads (fs_write collage_jpg (Picture (collage_of images))) w1)
    ∧ Forall2 (λ url t, img_src t = None ∧ img_size t = (120, 90)
                        ∨ img_src t = url)
              (List.filter usable urls) images
    ∧ same_but_clock_and_logs w w1.
Proof.
  destruct (run_fetch_thumbnails E me urls [] w)
    as (images & w1 & Hrun & Htiles & Hframe).
  exists images, w1. split; [|done].
  unfold create_thumbnail_collage. rewrite run_mbind, Hrun.
  rewrite app_nil_l. unfold collage_of. by case_bool_decide.
Qed.

Lemma collage_of_pasted (images : list image) :
  pasted (collage_of images)
  = imap (λ i img, (resize img (120, 90), (Z.of_nat i * 120, 0))) images.
Proof.
  unfold collage_of. case_bool_decide as Hi; [by subst|].
  by rewrite pasted_paste_tiles.
Qed.



Example collage_unfetchable_is_gray :
  let E := {| bot_api := bot_api Sample.fine;
              extract_info := extract_info Sample.fine;
              download := download Sample.fine;
              fetch_image := λ _ _, inl (Error "404 Client Error");
              remove_error := remove_error Sample.fine |} in
  collage_tiles (run E 7 (create_thumbnail_collage [Some "https://t/1"])
                     empty_world).2
  = Some [(gray_tile (120, 90), (0, 0))].
Proof. vm_compute. reflexivity. Qed.

Lemma fs_exists_write_collage f fs :
  fs_exists collage_jpg (fs_write collage_jpg f fs) = true.
Proof.
  unfold fs_exists, fs_write.
  change (in_downloads collage_jpg) with (Some "collage.jpg").
  cbv beta iota. apply bool_decide_eq_true.
  induction fs as [|[n g] fs IH]; simpl; [by left|].
  case_bool_decide; simpl; [by left|by right].
Qed.

Ltac run_collage :=
  match goal with
  | |- context [run ?E ?me (create_thumbnail_collage ?u) ?W] =>
      let images := fresh "images" in
      let w1 := fresh "w1" in
      let Hi := fresh "Himages" in
      let Hf := fresh "Hframe" in
      destruct (run_create_thumbnail_collage E me u W)
        as (images & w1 & -> & Hi & Hf);
      let Hud := fresh "Hud" in
      let Hdl := fresh "Hdl" in
      let Hth := fresh "Hth" in
      let Hcl := fresh "Hcl" in
      let Hfi := fresh "Hfi" in
      destruct Hf as (Hud & Hdl & Hth & Hcl & Hfi);
      cbn in Hud, Hdl, Hth, Hcl, Hfi
  end.

(** A search either leaves the directory and the tasks as they are, or saves
    a collage under the one fixed name and schedules its deletion. *)
Lemma run_search_youtube_collage E me chat text w :
  let w' := (run E me (search_youtube chat text) w).2 in
  (threads w' = threads w ∧ downloads w' = downloads w)
  ∨ (∃ images,
        threads w' = (threads w ++ [deletion_thread me collage_jpg])%list
        ∧ downloads w'
          = fs_write collage_jpg (Picture (collage_of images)) (downloads w)).
Proof.
  intros w'; subst w'.
  unfold search_youtube. case_bool_decide as Ht; [by left|].
  rewrite run_mbind. cbn [run call handle].
  destruct (bot_api E (clock w) me _) as [e|pm]; [by left|].
  rewrite run_try_except, run_mbind. cbn [run call handle].
  destruct (extract_info E _ text) as [e|sr].
  { left. cbn. by destruct (bot_api _ _ _ _). }
  cbv beta iota zeta.
  destruct (bool_decide (default [] sr = [])) eqn:Hres.
  { left. cbn. destruct (bot_api _ _ _ _); cbn; [|done].
    by destruct (bot_api _ _ _ _). }
  rewrite run_mbind. cbn [run perform handle]. rewrite run_mbind.
  run_collage. right. exists images.
  cbn. rewrite fs_exists_write_collage. cbn.
  destruct (bot_api _ _ _ _) as [e|sent]; cbn.
  { destruct (bot_api _ _ _ _); cbn; unfold deletion_thread; split; congruence. }
  destruct (bot_api _ _ _ _) as [e|?]; cbn.
  { destruct (bot_api _ _ _ _); cbn; unfold deletion_thread; split; congruence. }
  unfold deletion_thread; split; congruence.
Qed.

(** When the search finds results, it is the second case. *)
Lemma run_search_youtube_finds E me chat text w :
  search_finds E me text w →
  let w' := (run E me (search_youtube chat text) w).2 in
  ∃ images,
    threads w' = (threads w ++ [deletion_thread me collage_jpg])%list
    ∧ downloads w'
      = fs_write collage_jpg (Picture (collage_of images)) (downloads w).
Proof.
  intros (Ht & Hreply & results & Hinfo & Hres) w'; subst w'.
  unfold search_youtube. rewrite bool_decide_false by done.
  rewrite run_mbind. cbn [run call handle]. fold searching.
  destruct (bot_api E (clock w) me searching) as [e|pm]; [done|].
  rewrite run_try_except, run_mbind. cbn [run call handle clock tick add_call].
  rewrite Hinfo. cbv beta iota zeta. cbn [default].
  rewrite bool_decide_false by done.
  rewrite run_mbind. cbn [run perform handle]. rewrite run_mbind.
  run_collage. exists images.
  cbn. rewrite fs_exists_write_collage. cbn.
  destruct (bot_api _ _ _ _) as [e|sent]; cbn.
  { destruct (bot_api _ _ _ _); cbn; unfold deletion_thread; split; congruence. }
  destruct (bot_api _ _ _ _) as [e|?]; cbn.
  { destruct (bot_api _ _ _ _); cbn; unfold deletion_thread; split; congruence. }
  unfold deletion_thread; split; congruence.
Qed.

Lemma pending_deletions_snoc path w w' me :
  threads w' = (threads w ++ [deletion_thread me path])%list →
  pending_deletions path w'
  = (pending_deletions path w ++ [deletion_thread me path])%list.
Proof.
  intros H. unfold pending_deletions. rewrite H, List.filter_app. f_equal.
  change (List.filter (is_deletion_of path) [deletion_thread me path])
    with (if bool_decide (path = path) then [deletion_thread me path] else []).
  by rewrite bool_decide_true.
Qed.



(** ** The dictionary of a user across the steps of a run *)

Lemma data_of_store me d w :
  data_of me (set_user_data (λ m, <[me := d]> m) w) = d.
Proof. unfold data_of. simpl. by rewrite lookup_insert_eq. Qed.

Lemma data_of_tick me w : data_of me (tick w) = data_of me w.
Proof. done. Qed.
Lemma data_of_add_call me c w : data_of me (add_call c w) = data_of me w.
Proof. done. Qed.
Lemma data_of_add_log me l w : data_of me (add_log l w) = data_of me w.
Proof. done. Qed.
Lemma data_of_set_threads me f w : data_of me (set_threads f w) = data_of me w.
Proof. done. Qed.
Lemma data_of_set_downloads me f w :
  data_of me (set_downloads f w) = data_of me w.
Proof. done. Qed.

Ltac dict :=
  repeat first
    [ rewrite data_of_tick | rewrite data_of_add_call | rewrite data_of_add_log
    | rewrite data_of_set_threads | rewrite data_of_set_downloads
    | rewrite data_of_store ].

Lemma new_calls_app w w' l :
  calls w' = (calls w ++ l)%list → new_calls w w' = l.
Proof. intros H. unfold new_calls. by rewrite H, drop_app_length. Qed.

Lemma py_getitem_in_range (l : list video) (n : Z) :
  1 ≤ n ≤ Z.of_nat (length l) →
  ∃ v, l !! Z.to_nat (n - 1) = Some v ∧ py_getitem (VList l) (n - 1) = inr v.
Proof.
  intros Hn. destruct (lookup_lt_is_Some_2 l (Z.to_nat (n - 1))) as [v Hv];
    [lia|].
  exists v. split; [done|]. unfold py_getitem.
  destruct (n - 1 <? 0) eqn:Hneg; [lia|].
  destruct ((0 <=? n - 1) && (n - 1 <? Z.of_nat (length l))) eqn:Hin;
    [by rewrite Hv|lia].
Qed.

(** ** Selecting a candidate *)

(** What [handle_user_response] does with a text while a selection is
    awaited. *)
Lemma run_handle_user_response_awaiting E me chat_id message_id text w
  (candidates : list video) :
  data_of me w !! "state" = Some awaiting_video_selection →
  data_of me w !! "search_results" = Some (VList candidates) →
  let w' := (run E me (handle_user_response chat_id message_id text) w).2 in
  let valid :=
    match PyStr.int text with
    | Some n => (1 <=? n) && (n <=? Z.of_nat (length candidates))
    | None => false
    end in
  (valid = false →
   user_data w' = user_data w
   ∧ new_calls w w' = [(me, retry_prompt, bot_api E (clock w) me retry_prompt)]
   ∧ threads w' = threads w ∧ downloads w' = downloads w)
  ∧ (valid = true →
     ∃ n v,
       PyStr.int text = Some n
       ∧ candidates !! Z.to_nat (n - 1) = Some v
       ∧ data_of me w' !! "selected_video" = Some (VVideo v)
       ∧ (is_Some (title v) →
          Forall (λ c, answered c.2 = true) (new_calls w w') →
          data_of me w' !! "state" = Some VNone
          ∧ ∃ sent,
              data_of me w'
              = <["state" := VNone]>
                  (<["selection_message_id" := VInt sent]>
                     (<["selected_video" := VVideo v]> (data_of me w))))).
Proof.
  intros Hs Hc w' valid. subst w' valid.
  unfold handle_user_response, ud_get. cbn. rewrite Hs. cbn.
  change (bool_decide ("awaiting_video_selection" = "")) with false.
  rewrite bool_decide_true by done. cbn.
  unfold handle_video_selection.
  assert (Hretry :
    (let w' := (run E me (call (Await_bot retry_prompt) ≫= λ _ : Z, mret ()) w).2 in
     user_data w' = user_data w
     ∧ new_calls w w' = [(me, retry_prompt, bot_api E (clock w) me retry_prompt)]
     ∧ threads w' = threads w ∧ downloads w' = downloads w)).
  { cbn. destruct (bot_api _ _ _ _) eqn:Hb; cbn;
      rewrite (new_calls_app _ _
                 [(me, retry_prompt, bot_api E (clock w) me retry_prompt)]);
      cbn; rewrite ?Hb; done. }
  destruct (PyStr.int text) as [n|] eqn:Hn; cbn; [|split; [auto|done]].
  destruct (1 <=? n) eqn:H1; cbn; [|split; [auto|done]].
  rewrite Hc. cbn.
  destruct (n <=? _) eqn:H2; cbn; [|split; [auto|done]].
  clear Hretry. split; [done|]. intros _. rewrite Hc. cbn.
  destruct (py_getitem_in_range candidates n) as (v & Hv & ->); [lia|].
  exists n, v. split; [done|]. split; [done|]. cbn.
  destruct (bot_api E (clock w) me (Delete_message _ _)) as [e|?] eqn:Hdel;
    cbn.
  { split.
    - destruct e; cbn; repeat (destruct (bot_api _ _ _ _); cbn); dict;
        apply lookup_insert_eq.
    - intros _ Hall. exfalso. revert Hall.
      destruct e; cbn; repeat (destruct (bot_api _ _ _ _); cbn);
        unfold new_calls; cbn; rewrite <- ?app_assoc, drop_app_length;
        intros Hall; by apply Forall_cons in Hall as [? _]. }
  destruct (title v) as [t|] eqn:Ht; cbn.
  2:{ split; [dict; apply lookup_insert_eq|]. by intros [? ?]. }
  destruct (bot_api _ _ _ (Reply_text _ _)) as [e|sent] eqn:Hrep; cbn.
  { split.
    - destruct e; cbn; repeat (destruct (bot_api _ _ _ _); cbn); dict;
        apply lookup_insert_eq.
    - intros _ Hall. exfalso. revert Hall.
      destruct e; cbn; repeat (destruct (bot_api _ _ _ _); cbn);
        unfold new_calls; cbn; rewrite <- ?app_assoc, drop_app_length;
        intros Hall; apply Forall_cons in Hall as [_ Hall];
        by apply Forall_cons in Hall as [? _]. }
  dict. split.
  { by rewrite lookup_insert_ne, lookup_insert_ne, lookup_insert_eq. }
  intros _ _. split; [apply lookup_insert_eq|]. by exists sent.
Qed.



(** ** Locating the produced file *)

Lemma find_first {A} (p : A → bool) (l : list A) (x : A) :
  List.find p l = Some x →
  ∃ before after, l = (before ++ x :: after)%list
                  ∧ Forall (λ y, p y = false) before ∧ p x = true.
Proof.
  induction l as [|y l IH]; [done|]. simpl.
  destruct (p y) eqn:Hy.
  - intros [= ->]. by exists [], l.
  - intros H. destruct (IH H) as (before & after & -> & Hb & Hx).
    exists (y :: before), after. repeat split; [by constructor|done].
Qed.

Lemma find_nowhere {A} (p : A → bool) (l : list A) :
  List.find p l = None → Forall (λ y, p y = false) l.
Proof.
  induction l as [|y l IH]; [done|]. simpl.
  destruct (p y) eqn:Hy; [done|]. intros H. constructor; auto.
Qed.

(** C8.  When the expected output path does not exist after the producer has
    run, the file that is adopted is the first one of the working directory
    (in the order [os.listdir] gives) whose name begins with the stem; when
    no name begins with the stem, [FileNotFoundError] is raised.  Nothing in
    the world changes. *)
Theorem locate_output_adopts_first_match E me output_path safe_title w :
  fs_exists output_path (downloads w) = false →
  Forall (λ f, f ≠ "") (downloads w).*1 →
  let r := run E me (locate_output output_path safe_title) w in
  r.2 = w
  ∧ ((∃ before f after,
         (downloads w).*1 = (before ++ f :: after)%list
         ∧ Forall (λ g, PyStr.startswith g safe_title = false) before
         ∧ PyStr.startswith f safe_title = true
         ∧ r.1 = inr (PyStr.path_join TEMP_DOWNLOAD_DIR f))
     ∨ (Forall (λ g, PyStr.startswith g safe_title = false) (downloads w).*1
        ∧ r.1 = inl (FileNotFoundError "Downloaded file could not be found."))).
Proof.
  intros Habsent Hnames r. subst r. unfold locate_output. cbn.
  rewrite Habsent. cbn. rewrite bool_decide_true by done.
  destruct (List.find _ _) as [f|] eqn:Hfind.
  - destruct (find_first _ _ _ Hfind) as (before & after & Hl & Hb & Hf).
    assert (f ≠ "") as Hne.
    { rewrite Hl in Hnames. apply Forall_app in Hnames as [_ Hnames].
      by apply Forall_cons in Hnames as [? _]. }
    rewrite bool_decide_false by done. cbn. split; [done|]. left.
    by exists before, f, after.
  - cbn. split; [done|]. right. split; [|done]. by apply find_nowhere.
Qed.

Lemma locate_output_adopts_first_match_witness :
  let w := set_downloads (λ _, [("collage.jpg", Picture (image_new (600, 90) "gray"));
                                ("Lofi Beats.webm", Media "https://y/1");
                                ("Lofi Beats.m4a", Media "https://y/1")])
                         empty_world in
  let r := run Sample.fine 7
             (locate_output "downloads/Lofi Beats.mp3" "Lofi Beats") w in
  r.2 = w
  ∧ ((∃ before f after,
         (downloads w).*1 = (before ++ f :: after)%list
         ∧ Forall (λ g, PyStr.startswith g "Lofi Beats" = false) before
         ∧ PyStr.startswith f "Lofi Beats" = true
         ∧ r.1 = inr (PyStr.path_join TEMP_DOWNLOAD_DIR f))
     ∨ (Forall (λ g, PyStr.startswith g "Lofi Beats" = false) (downloads w).*1
        ∧ r.1 = inl (FileNotFoundError "Downloaded file could not be found."))).
Proof.
  apply locate_output_adopts_first_match.
  - reflexivity.
  - repeat constructor; discriminate.
Defined.

(** The task sends what was adopted. *)
Example download_adopts_other_extension :
  let E := {| bot_api := bot_api Sample.fine;
              extract_info := extract_info Sample.fine;
              download := λ _ _ _, (["Lofi Beats.webm"], None);
              fetch_image := fetch_image Sample.fine;
              remove_error := remove_error Sample.fine |} in
  let w' := (run E 7 (download_and_send_file 7 (VVideo Sample.lofi)
                        (VStr "mp3") "128") empty_world).2 in
  (calls w').*1.*2
  = [Send_audio 7 "downloads/Lofi Beats.webm" "Lofi Beats" (Some 185)].
Proof. vm_compute. reflexivity. Qed.

Example download_finds_nothing :
  let E := {| bot_api := bot_api Sample.fine;
              extract_info := extract_info Sample.fine;
              download := λ _ _ _, ([], None);
              fetch_image := fetch_image Sample.fine;
              remove_error := remove_error Sample.fine |} in
  let w' := (run E 7 (download_and_send_file 7 (VVideo Sample.lofi)
                        (VStr "mp3") "128") empty_world).2 in
  (calls w').*1.*2
  = [Send_message 7 ("❌ Failed to download 'Lofi, Beats!'. Error: "
                     +:+ "Downloaded file could not be found.")].
Proof. vm_compute. reflexivity. Qed.

(** ** The background download *)

Lemma fs_exists_delete path fs : fs_exists path (fs_delete path fs) = false.
Proof.
  unfold fs_exists, fs_delete. destruct (in_downloads path) as [name|]; [|done].
  apply bool_decide_eq_false. intros Hin.
  apply list_elem_of_fmap in Hin as ([n g] & -> & Hin).
  by apply list_elem_of_filter in Hin as [Hne _].
Qed.

(** C3, on the code.  When the producer raises, the task sends a notice that
    names the title of the candidate and, the notice going through, removes
    the file at the expected path if there is one.  The dictionary of the
    user is left exactly as it was: nothing of the session is reset. *)
Theorem download_failure_keeps_session E me chat_id (v : video) file_format
  quality w (t url : string) (names : list string) (e : exn) :
  title v = Some t →
  webpage_url v = Some url →
  download E (clock w) (download_plan (PyStr.safe_title t) file_format quality).1
           url = (names, Some e) →
  (∀ n path, remove_error E n path = None) →
  let expected := (download_plan (PyStr.safe_title t) file_format quality).2 in
  let w' := (run E me (download_and_send_file chat_id (VVideo v) file_format
                         quality) w).2 in
  ∃ answer,
    new_calls w w' = [(me, failure_notice chat_id t e, answer)]
    ∧ (answered answer = true → fs_exists expected (downloads w') = false)
    ∧ user_data w' = user_data w
    ∧ threads w' = threads w.
Proof.
  intros Ht Hu Hdl Hrm expected w'. subst expected w'.
  unfold download_and_send_file. cbn. rewrite Ht, Hu. cbn.
  destruct (download_plan _ _ _) as [opts expected] eqn:Hplan.
  cbn in Hdl. cbn. rewrite Hdl. cbn. fold (failure_notice chat_id t e).
  destruct (bot_api _ _ _ _) as [e'|sent] eqn:Hsend; cbn.
  { eexists. split; [by apply new_calls_app|]. done. }
  exists (inr sent).
  destruct (bool_decide (expected = "")) eqn:Hempty; cbn.
  { apply bool_decide_eq_true in Hempty as ->.
    split; [by apply new_calls_app|]. done. }
  destruct (fs_exists expected _) eqn:Hex; cbn.
  - rewrite Hex. cbn. rewrite Hrm. cbn. split; [by apply new_calls_app|].
    split; [intros _; apply fs_exists_delete|done].
  - split; [by apply new_calls_app|]. done.
Qed.

(** C5, on the code.  When the producer has left the file at the expected
    path and the transport then fails both for the delivery and for the
    failure notice, the task ends with the exception of the notice: no
    deletion has been scheduled, nothing has been removed, and the file
    stays in the working directory. *)
Theorem undelivered_file_is_left_behind E me chat_id (v : video) file_format
  quality w (t url : string) (names : list string) :
  title v = Some t →
  webpage_url v = Some url →
  download E (clock w) (download_plan (PyStr.safe_title t) file_format quality).1
           url = (names, None) →
  let expected := (download_plan (PyStr.safe_title t) file_format quality).2 in
  fs_exists expected (produced_in names url (downloads w)) = true →
  (∀ n c, answered (bot_api E n me c) = false) →
  let r := run E me (download_and_send_file chat_id (VVideo v) file_format
                       quality) w in
  (∃ e, r.1 = inl e)
  ∧ downloads r.2 = produced_in names url (downloads w)
  ∧ fs_exists expected (downloads r.2) = true
  ∧ threads r.2 = threads w.
Proof.
  intros Ht Hu Hdl expected Hex Hdown r. subst expected r.
  unfold download_and_send_file. cbn. rewrite Ht, Hu. cbn.
  destruct (download_plan _ _ _) as [opts expected] eqn:Hplan.
  cbn in Hdl, Hex. cbn. rewrite Hdl. cbn.
  fold (produced_in names url (downloads w)). rewrite Hex. cbn.
  fold (produced_in names url (downloads w)). rewrite Hex. cbn.
  assert (Hfail : ∀ n c, ∃ e, bot_api E n me c = inl e).
  { intros n c. specialize (Hdown n c).
    destruct (bot_api E n me c) as [e|]; [by exists e|done]. }
  destruct (bool_decide (file_format = VStr "mp3")); cbn.
  - destruct (Hfail (S (clock w)) (Send_audio chat_id expected
                (PyStr.safe_title t) (duration v))) as [e1 ->]. cbn.
    destruct (Hfail (S (S (clock w))) (Send_message chat_id
                ("❌ Failed to download '" +:+ t +:+ "'. Error: "
                 +:+ str_exn e1))) as [e2 ->]. cbn.
    split; [by exists e2|done].
  - destruct (Hfail (S (clock w)) (Send_video chat_id expected
                (PyStr.safe_title t) (duration v))) as [e1 ->]. cbn.
    destruct (Hfail (S (S (clock w))) (Send_message chat_id
                ("❌ Failed to download '" +:+ t +:+ "'. Error: "
                 +:+ str_exn e1))) as [e2 ->]. cbn.
    split; [by exists e2|done].
Qed.

(** A scheduled deletion that finds the file gone logs a warning and ends
    normally. *)
Lemma deletion_of_absent_file_is_swallowed E me path delay w :
  fs_exists path (downloads w) = false →
  let r := run E me (schedule_file_deletion path delay) w in
  r.1 = inr tt
  ∧ downloads r.2 = downloads w
  ∧ last (logs r.2)
    = Some (Warning, "File not found for deletion: " +:+ path).
Proof.
  intros Hex r. subst r. unfold schedule_file_deletion. cbn.
  rewrite Hex. cbn. by rewrite last_snoc.
Qed.

Lemma download_failure_keeps_session_witness :
  let w := Sample.ready in
  let w' := (run Sample.producer_fails 7
               (download_and_send_file 7 (VVideo Sample.lofi) (VStr "mp3") "128")
               w).2 in
  (∃ answer,
     new_calls w w'
     = [(7, failure_notice 7 "Lofi, Beats!" (Error "HTTP Error 403: Forbidden"),
         answer)]
     ∧ (answered answer = true
        → fs_exists "downloads/Lofi Beats.mp3" (downloads w') = false)
     ∧ user_data w' = user_data w
     ∧ threads w' = threads w)
  ∧ data_of 7 w' !! "selected_video" = Some (VVideo Sample.lofi)
  ∧ data_of 7 w' !! "format" = Some (VStr "mp3")
  ∧ is_Some (data_of 7 w' !! "search_results").
Proof.
  split.
  - apply (download_failure_keeps_session Sample.producer_fails 7 7 Sample.lofi
             (VStr "mp3") "128" Sample.ready "Lofi, Beats!" "https://y/1" []
             (Error "HTTP Error 403: Forbidden")); reflexivity.
  - vm_compute. repeat split. by eexists.
Defined.

Lemma undelivered_file_is_left_behind_witness :
  let r := run Sample.transport_down 7
             (download_and_send_file 7 (VVideo Sample.lofi) (VStr "mp3") "128")
             Sample.ready in
  (∃ e, r.1 = inl e)
  ∧ downloads r.2
    = produced_in ["Lofi Beats.mp3"] "https://y/1" (downloads Sample.ready)
  ∧ fs_exists "downloads/Lofi Beats.mp3" (downloads r.2) = true
  ∧ threads r.2 = threads Sample.ready.
Proof.
  apply (undelivered_file_is_left_behind Sample.transport_down 7 7 Sample.lofi
           (VStr "mp3") "128" Sample.ready "Lofi, Beats!" "https://y/1"
           ["Lofi Beats.mp3"]); reflexivity.
Defined.

(** ** Selecting a quality *)

Lemma downloads_in_flight_snoc me chat_id video_info file_format quality w w' :
  threads w'
  = (threads w ++ [download_thread me chat_id video_info file_format quality])%list →
  downloads_in_flight me w' = S (downloads_in_flight me w).
Proof.
  intros H. unfold downloads_in_flight. rewrite H, List.filter_app, length_app.
  change (List.filter (is_download_of me)
            [download_thread me chat_id video_info file_format quality])
    with (if bool_decide (me = me)
          then [download_thread me chat_id video_info file_format quality]
          else []).
  rewrite bool_decide_true by done. simpl. lia.
Qed.

(** C1 (amended).  A quality-selection event is never rejected.  With a
    selected candidate (that has a title) and a format stored, and the two
    transport calls of the handler answered, the handler adds one more
    download task for that candidate, format and quality, whatever the number
    of downloads already in flight: afterwards there is one more. *)
Theorem quality_event_launches_download E me chat_id data quality w
  (v : video) (t : string) (file_format : value) :
  PyStr.split "_" data !! 1%nat = Some quality →
  data_of me w !! "selected_video" = Some (VVideo v) →
  title v = Some t →
  data_of me w !! "format" = Some file_format →
  let w' := (run E me (quality_button_handler chat_id data) w).2 in
  Forall (λ c, answered c.2 = true) (new_calls w w') →
  threads w'
  = (threads w
     ++ [download_thread me chat_id (VVideo v) file_format quality])%list
  ∧ downloads_in_flight me w' = S (downloads_in_flight me w)
  ∧ user_data w' = user_data w.
Proof.
  intros Hq Hv Ht Hf w'. subst w'. unfold quality_button_handler. cbn.
  destruct (bot_api _ _ _ Answer_callback_query) as [e|?] eqn:Hans; cbn.
  { unfold new_calls. cbn. rewrite drop_app_length. intros Hall.
    by apply Forall_cons in Hall as [? _]. }
  rewrite Hq. cbn. dict. rewrite Hv. cbn. rewrite Ht. cbn.
  destruct (bot_api _ _ _ (Edit_query_message _ _)) as [e|?] eqn:Hedit; cbn.
  { unfold new_calls. cbn. rewrite <- app_assoc, drop_app_length. intros Hall.
    apply Forall_cons in Hall as [_ Hall].
    by apply Forall_cons in Hall as [? _]. }
  dict. rewrite Hf. cbn. intros _.
  fold (download_thread me chat_id (VVideo v) file_format quality).
  split; [done|]. split; [|done].
  by eapply downloads_in_flight_snoc.
Qed.

Lemma quality_event_launches_download_witness :
  let w := Sample.ready in
  let w' := (run Sample.fine 7 (quality_button_handler 7 "quality_128") w).2 in
  downloads_in_flight 7 w = 1%nat
  ∧ threads w'
    = (threads w
       ++ [download_thread 7 7 (VVideo Sample.lofi) (VStr "mp3") "128"])%list
  ∧ downloads_in_flight 7 w' = S (downloads_in_flight 7 w)
  ∧ user_data w' = user_data w.
Proof.
  split; [reflexivity|].
  apply (quality_event_launches_download Sample.fine 7 7 "quality_128" "128"
           Sample.ready Sample.lofi "Lofi, Beats!" (VStr "mp3"));
    try reflexivity.
  vm_compute. repeat constructor.
Defined.

(** C1 (as stated) fails: the quality button pressed a second time, while
    the download started by the first press is waiting for its delivery to
    go through, is handled like the first and starts a second download. *)
Lemma second_download_counterexample :
  ∃ w, steps Sample.fine Sample.press_twice empty_world = Some w
       ∧ downloads_in_flight 7 w = 2%nat
       ∧ ¬ (downloads_in_flight 7 w ≤ 1)%nat
       ∧ (finished w).*1
         = [Handler (Message 7 1 "lofi"); Handler (Message 7 2 "1");
            Handler (Callback_query 7 "mp3");
            Handler (Callback_query 7 "quality_128");
            Handler (Callback_query 7 "quality_128")]
       ∧ Forall (λ r, r.2 = inr tt) (finished w).
Proof.
  eexists. split; [vm_compute; reflexivity|].
  vm_compute. repeat split; try lia. repeat constructor.
Qed.

(** ** Text while no selection is awaited *)

Lemma data_of_eq me w w' : user_data w' = user_data w → data_of me w' = data_of me w.
Proof. unfold data_of. by intros ->. Qed.

(** A search writes three keys of the dictionary and no other. *)
Lemma run_search_youtube_keeps E me chat text w key :
  key ≠ "search_results" → key ≠ "results_message_id" → key ≠ "state" →
  data_of me (run E me (search_youtube chat text) w).2 !! key
  = data_of me w !! key.
Proof.
  intros K1 K2 K3.
  unfold search_youtube. case_bool_decide as Ht; [done|].
  rewrite run_mbind. cbn [run call handle].
  destruct (bot_api E (clock w) me _) as [e|pm]; [done|].
  rewrite run_try_except, run_mbind. cbn [run call handle].
  destruct (extract_info E _ text) as [e|sr].
  { cbn. by destruct (bot_api _ _ _ _). }
  cbv beta iota zeta.
  destruct (bool_decide (default [] sr = [])) eqn:Hres.
  { cbn. destruct (bot_api _ _ _ _); cbn; [|done].
    by destruct (bot_api _ _ _ _). }
  rewrite run_mbind. cbn [run perform handle]. rewrite run_mbind.
  run_collage.
  assert (Hw1 : data_of me w1 !! key = data_of me w !! key).
  { unfold data_of at 1. rewrite Hud, lookup_insert_eq. cbn.
    by rewrite lookup_insert_ne. }
  cbn. rewrite fs_exists_write_collage. cbn.
  destruct (bot_api _ _ _ _) as [e|sent]; cbn.
  { destruct (bot_api _ _ _ _); cbn; by dict. }
  destruct (bot_api _ _ _ _) as [e|?]; cbn.
  { destruct (bot_api _ _ _ _); cbn; dict; by rewrite lookup_insert_ne. }
  dict. by rewrite !lookup_insert_ne.
Qed.

Lemma run_handle_user_response_idle E me chat_id message_id text w :
  truthy (default VNone (data_of me w !! "state")) = false →
  run E me (handle_user_response chat_id message_id text) w
  = run E me (search_youtube chat_id text) w.
Proof.
  intros Hidle. unfold handle_user_response, ud_get. cbn.
  by rewrite Hidle.
Qed.

(** C6 (amended).  Once a selection has left the state [None], the same
    index sent again is not looked at as a selection: it is taken as the
    query of a new search, which [handle_user_response] runs in full (it
    may replace the stored candidates and bring the state back to
    [awaiting_video_selection]).  The stored selection is not touched. *)
Theorem repeated_selection_is_a_search E me chat_id message_id text w :
  data_of me w !! "state" = Some VNone →
  let r := run E me (handle_user_response chat_id message_id text) w in
  r = run E me (search_youtube chat_id text) w
  ∧ data_of me r.2 !! "selected_video" = data_of me w !! "selected_video".
Proof.
  intros Hs r. subst r.
  rewrite run_handle_user_response_idle by (by rewrite Hs).
  split; [done|]. by apply run_search_youtube_keeps.
Qed.

Lemma repeated_selection_is_a_search_witness :
  let r := run Sample.fine 7 (handle_user_response 7 3 "1") Sample.selected in
  r = run Sample.fine 7 (search_youtube 7 "1") Sample.selected
  ∧ data_of 7 r.2 !! "selected_video"
    = data_of 7 Sample.selected !! "selected_video".
Proof.
  apply (repeated_selection_is_a_search Sample.fine 7 7 3 "1" Sample.selected).
  reflexivity.
Defined.

(** C6 (as stated) fails: after "1" has been accepted, a second "1" is
    answered with the announcement of a search, not with the corrective
    prompt, and the dictionary changes: the state is
    [awaiting_video_selection] again. *)
Lemma repeated_selection_counterexample :
  let w := Sample.selected in
  let w' := (run Sample.fine 7 (handle_user_response 7 3 "1") w).2 in
  data_of 7 w !! "state" = Some VNone
  ∧ head (snd <$> (fst <$> new_calls w w')) = Some searching
  ∧ (retry_prompt ∉ snd <$> (fst <$> new_calls w w'))
  ∧ data_of 7 w' !! "state" = Some awaiting_video_selection
  ∧ user_data w' ≠ user_data w.
Proof.
  intros w w'.
  assert (Hs : data_of 7 w !! "state" = Some VNone) by reflexivity.
  assert (Hs' : data_of 7 w' !! "state" = Some awaiting_video_selection)
    by reflexivity.
  split; [done|]. split; [reflexivity|]. split; [|split; [done|]].
  - apply (bool_decide_eq_false_1
             (retry_prompt ∈ snd <$> (fst <$> new_calls w w'))).
    vm_compute. reflexivity.
  - intros Heq. apply (data_of_eq 7) in Heq. rewrite Heq, Hs in Hs'. discriminate Hs'.
Qed.

(** ** Error paths *)

Lemma always_mono {R} (P Q : list obs → R → Prop) tr (p : prog R) :
  (∀ tr' r, P tr' r → Q tr' r) → always P tr p → always Q tr p.
Proof.
  intros HPQ. revert tr. induction p as [r|X e k IH]; intros tr; simpl; auto.
Qed.

Lemma always_bind {A B} (P : list obs → B → Prop) tr (m : prog A)
  (f : A → prog B) :
  always (λ tr' a, always P tr' (f a)) tr m → always P tr (prog_bind m f).
Proof.
  revert tr. induction m as [a|X e k IH]; intros tr; simpl; auto.
Qed.

Lemma always_mbind {A B} (P : list obs → exn + B → Prop) tr (m : coro A)
  (f : A → coro B) :
  always (λ tr' r, match r with
                   | inl e => P tr' (inl e)
                   | inr a => always P tr' (f a)
                   end) tr m →
  always P tr (m ≫= f).
Proof.
  intros H. apply always_bind. eapply always_mono; [|exact H].
  by intros tr' [e|a].
Qed.

Lemma always_try_except {A} (P : list obs → exn + A → Prop) tr (m : coro A)
  (h : exn → coro A) :
  always (λ tr' r, match r with
                   | inl e => always P tr' (h e)
                   | inr a => P tr' (inr a)
                   end) tr m →
  always P tr (try_except m h).
Proof.
  intros H. apply always_bind. eapply always_mono; [|exact H].
  by intros tr' [e|a].
Qed.

Lemma quiet_harmless tr : forallb quiet tr = true → forallb harmless tr = true.
Proof.
  induction tr as [|o tr IH]; [done|]. simpl. unfold quiet at 1.
  intros H. apply andb_true_iff in H as [Ho Htr].
  apply andb_true_iff in Ho as [-> _]. by apply IH.
Qed.

Lemma quiet_no_failure tr : forallb quiet tr = true → existsb is_failure tr = false.
Proof.
  induction tr as [|o tr IH]; [done|]. simpl. unfold quiet at 1.
  intros H. apply andb_true_iff in H as [Ho Htr].
  apply andb_true_iff in Ho as [_ Ho]. apply negb_true_iff in Ho as ->.
  by apply IH.
Qed.

(** The loop over the thumbnails ends normally, and quietly. *)
Lemma always_fetch_thumbnails (Q : list obs → exn + list image → Prop)
  urls images tr :
  (∀ tr' imgs, forallb quiet tr' = true → Q (tr' ++ tr)%list (inr imgs)) →
  always Q tr (fetch_thumbnails urls images).
Proof.
  revert images tr. induction urls as [|url urls IH]; intros images tr HQ.
  - simpl. by apply (HQ []).
  - cbn [fetch_thumbnails]. destruct url as [u|]; [|by apply IH].
    destruct (bool_decide (u = "")); [by apply IH|].
    apply always_mbind, always_try_except. cbn. intros [e|img]; cbn.
    + intros []. apply IH. intros tr' imgs Htr'.
      rewrite (app_assoc tr' [_; _] tr : (tr' ++ _ :: _ :: tr = _)%list).
      apply HQ. rewrite forallb_app, Htr'. done.
    + apply IH. intros tr' imgs Htr'.
      rewrite (app_assoc tr' [_] tr : (tr' ++ _ :: tr = _)%list).
      apply HQ. rewrite forallb_app, Htr'. done.
Qed.

Lemma always_create_thumbnail_collage (Q : list obs → exn + string → Prop)
  urls tr :
  (∀ tr' path, forallb quiet tr' = true → Q (tr' ++ tr)%list (inr path)) →
  always Q tr (create_thumbnail_collage urls).
Proof.
  intros HQ. unfold create_thumbnail_collage.
  apply always_mbind, always_fetch_thumbnails. intros tr' imgs Htr'.
  destruct (bool_decide (imgs = [])); cbn; intros [];
    apply (HQ (_ :: tr')); cbn; by rewrite Htr'.
Qed.

Ltac decide_prefixes :=
  repeat match goal with
         | |- context [PyStr.startswith ?s ?p] =>
             let b := eval cbv in (PyStr.startswith s p) in
             change (PyStr.startswith s p) with b
         end.

Ltac leaf :=
  cbn; rewrite ?forallb_app, ?existsb_app; cbn;
  try change (bool_decide ("awaiting_video_selection" = "")) with false;
  decide_prefixes;
  repeat match goal with
         | H : forallb quiet ?t = true |- _ =>
             progress rewrite ?(quiet_harmless t H), ?(quiet_no_failure t H)
         end;
  cbn;
  first [ reflexivity | discriminate | done
        | intros ?; first [ reflexivity | discriminate | done ] ].

Ltac walk :=
  cbn;
  lazymatch goal with
  | |- always _ _ (fetch_thumbnails _ _) =>
      apply always_fetch_thumbnails; intros ? ? ?; walk
  | |- always _ _ (create_thumbnail_collage _ ≫= _) =>
      apply always_mbind, always_create_thumbnail_collage; intros ? ? ?; walk
  | |- always _ _ (if bool_decide (default [] ?o = []) then _ else _) =>
      destruct o as [[|? ?]|]; cbn [default];
      [ rewrite bool_decide_true by done
      | rewrite bool_decide_false by done
      | rewrite bool_decide_true by done ]; walk
  | |- always _ _ (_ ≫= _) => apply always_mbind; walk
  | |- always _ _ (prog_bind _ _) => apply always_bind; walk
  | |- always _ _ (match ?x with _ => _ end) => destruct x eqn:?; walk
  | |- always _ _ _ => progress unfold video_item; walk
  | |- _ = true → _ => leaf
  | |- ∀ _ : _ + _, _ => intros [?|?]; walk
  | |- ∀ _ : option _, _ => intros [?|]; walk
  | |- ∀ _ : bool, _ => intros []; walk
  | |- ∀ _ : unit, _ => intros []; walk
  | |- ∀ _, _ => intros ?; walk
  | |- _ => leaf
  end.

Lemma search_errors_are_harmless chat text tr :
  forallb quiet tr = true →
  always (λ tr r, failed tr r = true → forallb harmless tr = true) tr
         (search_youtube chat text).
Proof.
  intros Htr. unfold search_youtube.
  destruct (bool_decide (text = "")); [leaf|].
  walk.
Qed.

Lemma selection_errors_are_harmless chat_id message_id text tr :
  forallb quiet tr = true →
  always (λ tr r, failed tr r = true → forallb harmless tr = true) tr
         (handle_video_selection chat_id message_id text).
Proof. intros Htr. unfold handle_video_selection. walk. Qed.

Lemma response_errors_are_harmless chat_id message_id text :
  errors_are_harmless (handle_user_response chat_id message_id text).
Proof.
  unfold errors_are_harmless, handle_user_response, ud_get. cbn. intros state.
  destruct (negb (truthy (default VNone state))).
  - by apply search_errors_are_harmless.
  - destruct (bool_decide (default VNone state = awaiting_video_selection)).
    + by apply selection_errors_are_harmless.
    + leaf.
Qed.

Lemma button_errors_are_harmless data :
  errors_are_harmless (button_callback_handler data).
Proof. unfold errors_are_harmless, button_callback_handler. walk. Qed.

Lemma quality_errors_are_harmless chat_id data :
  errors_are_harmless (quality_button_handler chat_id data).
Proof. unfold errors_are_harmless, quality_button_handler. walk. Qed.

Lemma start_errors_are_harmless mention_html :
  errors_are_harmless (start mention_html).
Proof. unfold errors_are_harmless, start. walk. Qed.

Lemma deletion_errors_are_harmless file_path delay :
  errors_are_harmless (schedule_file_deletion file_path delay).
Proof. unfold errors_are_harmless, schedule_file_deletion. walk. Qed.

Lemma download_errors_are_harmless chat_id video_info file_format quality :
  errors_are_harmless
    (download_and_send_file chat_id video_info file_format quality).
Proof.
  unfold errors_are_harmless, download_and_send_file, locate_output, deliver,
    cleanup_messages, download_failed, attempt.
  walk.
Qed.

Lemma dispatch_errors_are_harmless u p :
  dispatch u = Some p → errors_are_harmless p.
Proof.
  destruct u as [c m|c mid text|c data]; simpl.
  - intros [= <-]. apply start_errors_are_harmless.
  - intros [= <-]. apply response_errors_are_harmless.
  - destruct (matches_format data);
      [intros [= <-]; apply button_errors_are_harmless|].
    destruct (matches_quality data); [|done].
    intros [= <-]. apply quality_errors_are_harmless.
Qed.

Lemma task_errors_are_harmless t : errors_are_harmless (start_task t).
Proof.
  destruct t; unfold start_task.
  - apply deletion_errors_are_harmless.
  - apply download_errors_are_harmless.
Qed.

Lemma harmless_keeps_restartable o d :
  harmless o = true → restartable d → restartable (dict_after o d).
Proof.
  destruct o as [X e x]. destruct e; simpl; try done.
  - destruct (String.eqb key "state") eqn:Hk.
    { apply String.eqb_eq in Hk as ->. intros Hv _. left.
      rewrite lookup_insert_eq. simpl. by apply negb_true_iff. }
    apply String.eqb_neq in Hk.
    destruct (String.eqb key "search_results") eqn:Hk'.
    { apply String.eqb_eq in Hk' as ->.
      destruct v as [| | | |[|c l]]; try done. intros _ [Hd|[Hd _]].
      - left. by rewrite lookup_insert_ne.
      - right. rewrite lookup_insert_ne by done. split; [done|].
        exists c, l. apply lookup_insert_eq. }
    apply String.eqb_neq in Hk'. intros _ [Hd|(Hd & c & l & Hc)].
    + left. by rewrite lookup_insert_ne.
    + right. rewrite !lookup_insert_ne by done. eauto.
  - intros _ _. by left.
Qed.

(** ** Restarting *)



(** ** A success path that is not harmless *)

(** The one effect that is not harmless, storing the state
    [awaiting_video_selection], is the last step of a search that succeeds.
    It relies on the candidates stored some [await]s earlier; a download that
    ends in between clears them.  No error is involved. *)
Example clear_between_the_writes_of_a_search :
  ∃ w, steps Sample.fine Sample.clear_during_search empty_world = Some w
       ∧ Forall (λ r, r.2 = inr tt) (finished w)
       ∧ downloads_in_flight 7 w = 0%nat
       ∧ stuck (data_of 7 w).
Proof.
  eexists. split; [vm_compute; reflexivity|].
  split; [vm_compute; repeat constructor|].
  split; [reflexivity|]. by vm_compute.
Qed.

(** From there every text gets the retry prompt, a format button only
    stores the format, a quality button raises [KeyError]: the dictionary
    stays as it is. *)
Lemma stuck_stays E me u p w :
  dispatch u = Some p →
  stuck (data_of me w) → stuck (data_of me (run E me p w).2).
Proof.
  intros Hp (Hs & Hc & Hv). destruct u as [c m|c mid text|c data]; simpl in Hp.
  - injection Hp as <-. unfold start. cbn.
    by destruct (bot_api _ _ _ _); cbn; dict.
  - injection Hp as <-. unfold handle_user_response, ud_get. cbn.
    rewrite Hs. cbn.
    change (bool_decide ("awaiting_video_selection" = "")) with false.
    rewrite bool_decide_true by done. cbn. unfold handle_video_selection.
    destruct (PyStr.int text) as [n|]; cbn.
    2:{ by destruct (bot_api _ _ _ _); cbn; dict. }
    destruct (1 <=? n) eqn:H1; cbn.
    2:{ by destruct (bot_api _ _ _ _); cbn; dict. }
    rewrite Hc. cbn. destruct (n <=? _) eqn:Hn; [apply Z.leb_le in H1, Hn; simpl in Hn; lia|]. cbn.
    by destruct (bot_api _ _ _ _); cbn; dict.
  - destruct (matches_format data).
    + injection Hp as <-. unfold button_callback_handler. cbn.
      destruct (bot_api _ _ _ _); cbn; [by dict|].
      destruct (bot_api _ _ _ _); cbn; dict; unfold stuck;
        by rewrite !lookup_insert_ne.
    + destruct (matches_quality data); [|done]. injection Hp as <-.
      unfold quality_button_handler. cbn.
      destruct (bot_api _ _ _ _); cbn; [by dict|].
      destruct (PyStr.split "_" data !! 1%nat); cbn; dict; [|done].
      rewrite Hv. cbn. by dict.
Qed.

(** * Further properties of the code *)

(** ** The duration shown in the result list *)

Lemma length_append (s t : string) :
  String.length (s +:+ t) = (String.length s + String.length t)%nat.
Proof. induction s as [|c s IH]; simpl; [done|]. by rewrite IH. Qed.

Lemma fmt_02d_two_chars (n : Z) :
  0 ≤ n < 60 → String.length (PyStr.fmt_02d n) = 2%nat.
Proof.
  intros Hn. assert (∃ k : nat, n = Z.of_nat k ∧ (k < 60)%nat) as (k & -> & Hk).
  { exists (Z.to_nat n). lia. }
  clear Hn. do 60 (destruct k as [|k]; [vm_compute; reflexivity|]). lia.
Qed.

(** X1.  [format_duration] shows a duration of less than an hour as minutes and
    seconds of two digits each, five characters in all; from an hour on it
    puts the hours in front, minutes and seconds staying two digits wide. *)
Theorem format_duration_shape (seconds : Z) :
  0 ≤ seconds →
  let shown := format_duration (Some seconds) in
  (seconds < 3600 →
   shown = PyStr.fmt_02d (seconds / 60) +:+ ":" +:+ PyStr.fmt_02d (seconds mod 60)
   ∧ String.length shown = 5%nat)
  ∧ (3600 ≤ seconds →
     shown = PyStr.fmt_d (seconds / 3600) +:+ ":"
             +:+ PyStr.fmt_02d (seconds / 60 mod 60) +:+ ":"
             +:+ PyStr.fmt_02d (seconds mod 60)
     ∧ String.length shown
       = (String.length (PyStr.fmt_d (seconds / 3600)) + 6)%nat).
Proof.
  intros Hpos shown. subst shown. unfold format_duration.
  assert (Hh : seconds / 60 / 60 = seconds / 3600)
    by (rewrite Z.div_div by lia; done).
  assert (Hs : 0 ≤ seconds mod 60 < 60) by (apply Z.mod_pos_bound; lia).
  assert (Hm : 0 ≤ seconds / 60 mod 60 < 60) by (apply Z.mod_pos_bound; lia).
  split; intros Hsec.
  - assert (Hlt : seconds / 3600 = 0) by (apply Z.div_small; lia).
    assert (Hmin : 0 ≤ seconds / 60 < 60).
    { split; [apply Z.div_pos; lia|]. apply Z.div_lt_upper_bound; lia. }
    rewrite Hh, Hlt. simpl. rewrite (Z.mod_small (seconds / 60)) by done.
    split; [done|].
    rewrite !length_append, !fmt_02d_two_chars by done. done.
  - assert (Hge : 0 < seconds / 3600).
    { apply Z.div_str_pos. lia. }
    rewrite Hh. destruct (0 <? seconds / 3600) eqn:Hcmp; [|lia].
    split; [done|].
    rewrite !length_append, !fmt_02d_two_chars by done. simpl. lia.
Qed.

Lemma format_duration_shape_witness :
  let shown := format_duration (Some 3725) in
  (3725 < 3600 →
   shown = PyStr.fmt_02d (3725 / 60) +:+ ":" +:+ PyStr.fmt_02d (3725 mod 60)
   ∧ String.length shown = 5%nat)
  ∧ (3600 ≤ 3725 →
     shown = PyStr.fmt_d (3725 / 3600) +:+ ":"
             +:+ PyStr.fmt_02d (3725 / 60 mod 60) +:+ ":"
             +:+ PyStr.fmt_02d (3725 mod 60)
     ∧ String.length shown
       = (String.length (PyStr.fmt_d (3725 / 3600)) + 6)%nat).
Proof. apply (format_duration_shape 3725). lia. Defined.

(** ** The stem as a file name *)

Section Resanitise.
Context {char : Type}.
Variables (is_alnum is_space : char → bool).

Lemma rstrip_idempotent (l : list char) :
  PyStr.rstrip is_space (PyStr.rstrip is_space l) = PyStr.rstrip is_space l.
Proof.
  induction l as [|c l IH]; [done|]. simpl.
  destruct (PyStr.rstrip is_space l) as [|d r] eqn:Hr.
  - destruct (is_space c) eqn:Hc; [done|]. simpl. by rewrite Hc.
  - simpl. simpl in IH. destruct (PyStr.rstrip is_space r) as [|d' r'] eqn:Hr'.
    + destruct (is_space d) eqn:Hd; [done|]. by injection IH as ->.
    + by rewrite IH.
Qed.

Lemma filter_all (P : char → Prop) `{∀ c, Decision (P c)} (l : list char) :
  Forall P l → filter P l = l.
Proof.
  induction 1 as [|c l Hc Hl IH]; [done|].
  rewrite filter_cons_True by done. by rewrite IH.
Qed.

Lemma safe_title_chars_idempotent (title : list char) :
  PyStr.safe_title_chars is_alnum is_space
    (PyStr.safe_title_chars is_alnum is_space title)
  = PyStr.safe_title_chars is_alnum is_space title.
Proof.
  unfold PyStr.safe_title_chars.
  set (kept := filter (λ c, is_alnum c || is_space c = true) title).
  assert (Hk : Forall (λ c, is_alnum c || is_space c = true) kept).
  { apply Forall_forall. intros c Hc. unfold kept in Hc.
    by apply list_elem_of_filter in Hc as [Hc _]. }
  destruct (rstrip_split is_space kept) as [ws [Hl _]]. rewrite Hl in Hk.
  apply Forall_app in Hk as [Hk _].
  rewrite (filter_all _ _ Hk). apply rstrip_idempotent.
Qed.
End Resanitise.

(** X2.  Sanitising a stem again changes nothing: a title that already is a stem
    gives itself. *)
Theorem safe_title_idempotent (video_title : string) :
  PyStr.safe_title (PyStr.safe_title video_title) = PyStr.safe_title video_title.
Proof.
  unfold PyStr.safe_title, PyStr.chars, PyStr.of_chars.
  by rewrite list_ascii_of_string_of_list_ascii, safe_title_chars_idempotent.
Qed.

Lemma kept_is_no_separator (c : ascii) :
  PyStr.isalnum c || PyStr.isspace c = true →
  c ≠ "/"%char ∧ c ≠ "."%char ∧ c ≠ "\"%char ∧ c ≠ "%"%char.
Proof.
  destruct c as [[] [] [] [] [] [] [] []]; vm_compute; intros H;
    try discriminate H; repeat split; discriminate.
Qed.

Lemma in_downloads_join (f : string) :
  in_downloads (PyStr.path_join TEMP_DOWNLOAD_DIR f) = Some f.
Proof.
  unfold in_downloads, PyStr.path_join, TEMP_DOWNLOAD_DIR.
  change ("downloads" +:+ "/" +:+ f)
    with (String "d" (String "o" (String "w" (String "n" (String "l"
           (String "o" (String "a" (String "d" (String "s" (String "/"
              f)))))))))).
  set (path := String "d" _).
  assert (Hpre : PyStr.startswith path "downloads/" = true).
  { unfold PyStr.startswith. subst path. simpl. by destruct f. }
  rewrite Hpre. subst path.
  change (drop 10 (PyStr.chars _)) with (PyStr.chars f).
  unfold PyStr.of_chars, PyStr.chars.
  by rewrite string_of_list_ascii_of_string.
Qed.

(** X3.  The expected output of a download is a file directly in [downloads/]:
    its name is the stem followed by [.mp3] (for the format [mp3]) or [.mp4]
    (for any other format), and the stem holds no path separator, dot or
    percent sign, whatever the title. *)
Theorem expected_output_is_in_downloads (video_title : string)
  (file_format : value) (quality : string) :
  let stem := PyStr.safe_title video_title in
  let plan := download_plan stem file_format quality in
  Forall (λ c, c ≠ "/"%char ∧ c ≠ "."%char ∧ c ≠ "\"%char ∧ c ≠ "%"%char)
         (PyStr.chars stem)
  ∧ in_downloads plan.2
    = Some (stem +:+ (if bool_decide (file_format = VStr "mp3")
                      then ".mp3" else ".mp4"))
  ∧ in_downloads (ydl_outtmpl plan.1) = Some (stem +:+ ".%(ext)s").
Proof.
  intros stem plan. split.
  - subst stem. unfold PyStr.safe_title, PyStr.chars, PyStr.of_chars.
    rewrite list_ascii_of_string_of_list_ascii.
    unfold PyStr.safe_title_chars.
    set (kept := filter _ _).
    assert (Hk : Forall (λ c, PyStr.isalnum c || PyStr.isspace c = true) kept).
    { apply Forall_forall. intros c Hc. unfold kept in Hc.
      by apply list_elem_of_filter in Hc as [Hc _]. }
    destruct (rstrip_split PyStr.isspace kept) as [ws [Hl _]]. rewrite Hl in Hk.
    apply Forall_app in Hk as [Hk _].
    eapply Forall_impl; [exact Hk|]. apply kept_is_no_separator.
  - subst plan. unfold download_plan.
    destruct (bool_decide (file_format = VStr "mp3")); simpl;
      by rewrite !in_downloads_join.
Qed.

(** ** Searching *)

(** X4.  A search that finds nothing tells so in place of its announcement and
    leaves the dictionary, the directory and the tasks as they were: no
    candidates are stored, no collage is made, no state is set. *)
Theorem search_without_results E me chat_id query w (pm : Z)
  (found : option (list video)) :
  query ≠ "" →
  bot_api E (clock w) me searching = inr pm →
  extract_info E (S (clock w)) query = inr found →
  default [] found = [] →
  let r := run E me (search_youtube chat_id query) w in
  user_data r.2 = user_data w
  ∧ downloads r.2 = downloads w
  ∧ threads r.2 = threads w
  ∧ ∃ answer rest,
      new_calls w r.2
      = (me, searching, inr pm)
        :: (me, no_results_notice chat_id pm, answer) :: rest
      ∧ (answered answer = true → rest = [] ∧ r.1 = inr tt).
Proof.
  intros Hq Hreply Hinfo Hnone r. subst r.
  unfold search_youtube. rewrite bool_decide_false by done.
  rewrite run_mbind. cbn [run call handle]. fold searching. rewrite Hreply.
  rewrite run_try_except, run_mbind. cbn [run call handle clock tick add_call].
  rewrite Hinfo. cbv beta iota zeta. rewrite Hnone.
  rewrite bool_decide_true by done. cbn. fold (no_results_notice chat_id pm).
  destruct (bot_api _ _ _ (no_results_notice _ _)) as [e|?] eqn:Hedit; cbn.
  - destruct (bot_api _ _ _ (Edit_message_text _ _ _)) eqn:Herr; cbn;
      repeat split; try done;
      do 2 eexists; (split; [apply new_calls_app; cbn; rewrite <- !app_assoc; done|done]).
  - repeat split; try done.
    eexists _, []. split; [apply new_calls_app; cbn; rewrite <- !app_assoc; done|done].
Qed.

Lemma search_without_results_witness :
  let E := {| bot_api := bot_api Sample.fine;
              extract_info := λ _ _, inr (Some []);
              download := download Sample.fine;
              fetch_image := fetch_image Sample.fine;
              remove_error := remove_error Sample.fine |} in
  let r := run E 7 (search_youtube 7 "zzzz") empty_world in
  user_data r.2 = user_data empty_world
  ∧ downloads r.2 = downloads empty_world
  ∧ threads r.2 = threads empty_world
  ∧ ∃ answer rest,
      new_calls empty_world r.2
      = (7, searching, inr 100)
        :: (7, no_results_notice 7 100, answer) :: rest
      ∧ (answered answer = true → rest = [] ∧ r.1 = inr tt).
Proof.
  intros E.
  apply (search_without_results E 7 7 "zzzz" empty_world 100 (Some []));
    [discriminate|reflexivity..].
Defined.

(** X5.  When the search provider raises, the error is logged, the user reads it
    in place of the announcement, and the dictionary, the directory and the
    tasks are as they were. *)
Theorem search_provider_failure E me chat_id query w (pm : Z) (e : exn) :
  query ≠ "" →
  bot_api E (clock w) me searching = inr pm →
  extract_info E (S (clock w)) query = inl e →
  let r := run E me (search_youtube chat_id query) w in
  user_data r.2 = user_data w
  ∧ downloads r.2 = downloads w
  ∧ threads r.2 = threads w
  ∧ logs r.2 = (logs w ++ [(Err, "Error during search: " +:+ str_exn e)])%list
  ∧ ∃ answer,
      new_calls w r.2
      = [(me, searching, inr pm); (me, search_error_notice chat_id pm e, answer)]
      ∧ r.1 = match answer with inl e' => inl e' | inr _ => inr tt end.
Proof.
  intros Hq Hreply Hinfo r. subst r.
  unfold search_youtube. rewrite bool_decide_false by done.
  rewrite run_mbind. cbn [run call handle]. fold searching. rewrite Hreply.
  rewrite run_try_except, run_mbind. cbn [run call handle clock tick add_call].
  rewrite Hinfo. cbn. fold (search_error_notice chat_id pm e).
  destruct (bot_api _ _ _ (search_error_notice _ _ _)) as [e'|?] eqn:Hedit;
    cbn; repeat split; try done;
    eexists; (split; [apply new_calls_app; cbn; rewrite <- !app_assoc; done|done]).
Qed.

Lemma search_provider_failure_witness :
  let E := {| bot_api := bot_api Sample.fine;
              extract_info := λ _ _, inl (Error "Unable to download API page");
              download := download Sample.fine;
              fetch_image := fetch_image Sample.fine;
              remove_error := remove_error Sample.fine |} in
  let e := Error "Unable to download API page" in
  let r := run E 7 (search_youtube 7 "lofi") empty_world in
  user_data r.2 = user_data empty_world
  ∧ downloads r.2 = downloads empty_world
  ∧ threads r.2 = threads empty_world
  ∧ logs r.2
    = (logs empty_world ++ [(Err, "Error during search: " +:+ str_exn e)])%list
  ∧ ∃ answer,
      new_calls empty_world r.2
      = [(7, searching, inr 100); (7, search_error_notice 7 100 e, answer)]
      ∧ r.1 = match answer with inl e' => inl e' | inr _ => inr tt end.
Proof.
  intros E e.
  apply (search_provider_failure E 7 7 "lofi" empty_world 100 e);
    [discriminate|reflexivity..].
Defined.





(** ** Selecting, choosing a format, choosing a quality *)

(** X8.  When deleting the user's message fails (with anything but a
    [ValueError] or an [IndexError]), the handler of a valid selection lets
    the exception escape: the candidate is already stored as
    [selected_video], but the state still awaits a selection and no format
    is offered. *)
Theorem selection_interrupted E me chat_id message_id text w
  (candidates : list video) (n : Z) (v : video) (e : exn) :
  data_of me w !! "state" = Some awaiting_video_selection →
  data_of me w !! "search_results" = Some (VList candidates) →
  PyStr.int text = Some n →
  1 ≤ n ≤ Z.of_nat (length candidates) →
  candidates !! Z.to_nat (n - 1) = Some v →
  bot_api E (clock w) me (Delete_message chat_id message_id) = inl e →
  (∀ msg, e ≠ ValueError msg ∧ e ≠ IndexError msg) →
  let r := run E me (handle_user_response chat_id message_id text) w in
  r.1 = inl e
  ∧ data_of me r.2 = <["selected_video" := VVideo v]> (data_of me w)
  ∧ data_of me r.2 !! "state" = Some awaiting_video_selection
  ∧ new_calls w r.2 = [(me, Delete_message chat_id message_id, inl e)].
Proof.
  intros Hs Hc Hn Hrange Hv Hdel He r. subst r.
  unfold handle_user_response, ud_get. cbn. rewrite Hs. cbn.
  change (bool_decide ("awaiting_video_selection" = "")) with false.
  rewrite bool_decide_true by done. cbn.
  unfold handle_video_selection. rewrite Hn. cbn.
  destruct (1 <=? n) eqn:H1; [|lia]. cbn. rewrite Hc. cbn.
  destruct (n <=? _) eqn:H2; [|lia]. cbn. rewrite Hc. cbn.
  destruct (py_getitem_in_range candidates n Hrange) as (v' & Hv' & ->).
  assert (v' = v) as -> by congruence.
  cbn. rewrite Hdel. cbn.
  destruct e as [msg|msg| | | |]; cbn;
    try (by destruct (He msg) as [? ?]);
    dict; (split; [done|]); (split; [done|]);
    (split; [by rewrite lookup_insert_ne|]); by apply new_calls_app.
Qed.

Lemma selection_interrupted_witness :
  let e := Error "Message can't be deleted" in
  let E := {| bot_api := λ n me c,
                match c with
                | Delete_message _ _ => inl e
                | _ => bot_api Sample.fine n me c
                end;
              extract_info := extract_info Sample.fine;
              download := download Sample.fine;
              fetch_image := fetch_image Sample.fine;
              remove_error := remove_error Sample.fine |} in
  let w := Sample.searched in
  let r := run E 7 (handle_user_response 7 2 "2") w in
  r.1 = inl e
  ∧ data_of 7 r.2 = <["selected_video" := VVideo Sample.jazz]> (data_of 7 w)
  ∧ data_of 7 r.2 !! "state" = Some awaiting_video_selection
  ∧ new_calls w r.2 = [(7, Delete_message 7 2, inl e)].
Proof.
  intros e E w.
  apply (selection_interrupted E 7 7 2 "2" w [Sample.lofi; Sample.jazz] 2
           Sample.jazz e); try reflexivity.
  - simpl. lia.
  - intros msg. split; discriminate.
Defined.

(** X9.  A format button stores its data as the format, whatever the state, and
    replaces the prompt by the two qualities of that format. *)
Theorem format_choice_is_stored E me data w :
  let r := run E me (button_callback_handler data) w in
  Forall (λ c, answered c.2 = true) (new_calls w r.2) →
  r.1 = inr tt
  ∧ data_of me r.2 = <["format" := VStr data]> (data_of me w)
  ∧ (snd <$> (fst <$> new_calls w r.2))
    = [Answer_callback_query;
       Edit_query_message "Select quality:" (quality_keyboard data)]
  ∧ threads r.2 = threads w.
Proof.
  intros r. subst r. unfold button_callback_handler. cbn.
  fold (quality_keyboard data).
  destruct (bot_api _ _ _ Answer_callback_query) as [e|?] eqn:Hans; cbn.
  { unfold new_calls. cbn. rewrite drop_app_length. intros Hall.
    by apply Forall_cons in Hall as [? _]. }
  destruct (bot_api _ _ _ (Edit_query_message _ _)) as [e|?] eqn:Hedit; cbn.
  { unfold new_calls. cbn. rewrite <- app_assoc, drop_app_length. intros Hall.
    apply Forall_cons in Hall as [_ Hall].
    by apply Forall_cons in Hall as [? _]. }
  intros _. dict. repeat split.
  unfold new_calls. cbn. by rewrite <- app_assoc, drop_app_length.
Qed.

Lemma format_choice_is_stored_witness :
  let w := Sample.selected in
  let r := run Sample.fine 7 (button_callback_handler "mp4") w in
  r.1 = inr tt
  ∧ data_of 7 r.2 = <["format" := VStr "mp4"]> (data_of 7 w)
  ∧ (snd <$> (fst <$> new_calls w r.2))
    = [Answer_callback_query;
       Edit_query_message "Select quality:" (quality_keyboard "mp4")]
  ∧ threads r.2 = threads w.
Proof.
  apply (format_choice_is_stored Sample.fine 7 "mp4" Sample.selected).
  vm_compute. repeat constructor.
Defined.

Lemma split_chars_nonempty sep cur l :
  ∃ x xs, PyStr.split_chars sep cur l = x :: xs.
Proof.
  revert cur. induction l as [|c l IH]; intros cur; simpl; [by eexists _, _|].
  destruct (Ascii.eqb c sep); [by eexists _, _|apply IH].
Qed.

Lemma prefix_cons (a b : ascii) (s t : string) :
  String.prefix (String a s) (String b t) = true →
  a = b ∧ String.prefix s t = true.
Proof. simpl. by destruct (ascii_dec a b). Qed.

(** Data that begins with [quality_] always has a second part when split at
    the underscores: the quality handler cannot fail on its index. *)
Lemma split_quality_some (data : string) :
  PyStr.startswith data "quality_" = true →
  ∃ q, PyStr.split "_" data !! 1%nat = Some q.
Proof.
  unfold PyStr.startswith. intros H.
  do 8 (destruct data as [|? data]; [discriminate H|];
        apply prefix_cons in H as [<- H]).
  unfold PyStr.split, PyStr.chars. simpl.
  destruct (split_chars_nonempty "_" [] (list_ascii_of_string data))
    as (x & xs & ->). by exists x.
Qed.

(** X10.  Every button the bot offers is taken by the handler meant for it: the
    two format buttons by [button_callback_handler], the quality buttons of
    either format by [quality_button_handler], which reads from them the
    tokens 128, 320, 360p and 720p.  More generally, whatever data the
    quality handler is given by its pattern has a token after the first
    underscore: the index in [data.split('_')[1]] cannot fail. *)
Theorem offered_buttons_are_handled (chat_id : Z) (data : string) :
  Forall (λ b, dispatch (Callback_query chat_id b.2)
               = Some (button_callback_handler b.2)) format_keyboard
  ∧ Forall (λ b, dispatch (Callback_query chat_id b.2)
                 = Some (quality_button_handler chat_id b.2))
           (quality_keyboard data)
  ∧ (λ b, PyStr.split "_" b.2 !! 1%nat) <$> quality_keyboard data
    = (if bool_decide (data = "mp3")
       then [Some "128"; Some "320"] else [Some "360p"; Some "720p"])
  ∧ ∀ pressed, matches_quality pressed = true →
               is_Some (PyStr.split "_" pressed !! 1%nat).
Proof.
  split; [by repeat constructor|].
  assert (Htoken : ∀ pressed, matches_quality pressed = true →
                              is_Some (PyStr.split "_" pressed !! 1%nat)).
  { intros pressed Hm. apply andb_true_iff in Hm as [Hm _].
    destruct (split_quality_some pressed Hm) as [q Hq]. by exists q. }
  unfold quality_keyboard. destruct (bool_decide (data = "mp3"));
    (split; [by repeat constructor|done]).
Qed.

(** X11.  A quality button pressed when no candidate is selected (the dictionary
    has been cleared, or nothing was selected yet) answers the button and
    raises [KeyError]: nothing is sent, stored or launched. *)
Theorem quality_without_selection E me chat_id data w (a : Z) :
  matches_quality data = true →
  data_of me w !! "selected_video" = None →
  bot_api E (clock w) me Answer_callback_query = inr a →
  let r := run E me (quality_button_handler chat_id data) w in
  r.1 = inl (KeyError "selected_video")
  ∧ user_data r.2 = user_data w
  ∧ threads r.2 = threads w
  ∧ new_calls w r.2 = [(me, Answer_callback_query, inr a)].
Proof.
  intros Hm Hv Hans r. subst r.
  apply andb_true_iff in Hm as [Hm _].
  destruct (split_quality_some data Hm) as [q Hq].
  unfold quality_button_handler. cbn. rewrite Hans. cbn. rewrite Hq. cbn.
  dict. rewrite Hv. cbn. repeat split. by apply new_calls_app.
Qed.

Lemma quality_without_selection_witness :
  let r := run Sample.fine 7 (quality_button_handler 7 "quality_128")
               empty_world in
  r.1 = inl (KeyError "selected_video")
  ∧ user_data r.2 = user_data empty_world
  ∧ threads r.2 = threads empty_world
  ∧ new_calls empty_world r.2 = [(7, Answer_callback_query, inr 100)].
Proof.
  apply (quality_without_selection Sample.fine 7 7 "quality_128" empty_world 100);
    reflexivity.
Defined.

(** ** The log of calls *)

Lemma handle_calls E me {X} (e : eff X) w :
  ∃ l, calls (handle E me e w).2 = (calls w ++ l)%list.
Proof.
  destruct e; simpl; try (by exists []; rewrite app_nil_r).
  - by eexists.
  - destruct (download _ _ _ _). simpl. by exists []; rewrite app_nil_r.
  - destruct (fs_exists _ _); [destruct (remove_error _ _ _)|]; simpl;
      by exists []; rewrite app_nil_r.
Qed.

(** A run only appends to the log of calls. *)
Lemma run_calls E me {R} (p : prog R) w :
  ∃ l, calls (run E me p w).2 = (calls w ++ l)%list.
Proof.
  revert w. induction p as [r|X e k IH]; intros w; simpl.
  - by exists []; rewrite app_nil_r.
  - destruct (handle E me e w) as [x w'] eqn:Hh.
    destruct (handle_calls E me e w) as [l1 Hl1]. rewrite Hh in Hl1.
    simpl in Hl1. destruct (IH x w') as [l2 Hl2]. exists (l1 ++ l2)%list.
    by rewrite Hl2, Hl1, app_assoc.
Qed.

(** ** The download, when it goes well *)

(** X12.  When the producer leaves the expected file and every call goes through,
    the task sends the file in the modality of the format (with the stem as
    title or caption and the duration), deletes the result list and the
    format prompt, schedules one deletion of the file after 120 seconds and
    empties the dictionary of the user, whatever it holds by then. *)
Theorem download_delivers_and_clears E me chat_id (v : video) file_format
  quality w (t url : string) (names : list string) (rid sid sent a1 a2 : Z) :
  title v = Some t →
  webpage_url v = Some url →
  let stem := PyStr.safe_title t in
  let expected := (download_plan stem file_format quality).2 in
  download E (clock w) (download_plan stem file_format quality).1 url
  = (names, None) →
  fs_exists expected (produced_in names url (downloads w)) = true →
  data_of me w !! "results_message_id" = Some (VInt rid) → rid ≠ 0 →
  data_of me w !! "selection_message_id" = Some (VInt sid) → sid ≠ 0 →
  bot_api E (S (clock w)) me (delivery chat_id v file_format expected stem)
  = inr sent →
  bot_api E (S (S (clock w))) me (Delete_message chat_id rid) = inr a1 →
  bot_api E (S (S (S (clock w)))) me (Delete_message chat_id sid) = inr a2 →
  let r := run E me (download_and_send_file chat_id (VVideo v) file_format
                       quality) w in
  r.1 = inr tt
  ∧ new_calls w r.2
    = [(me, delivery chat_id v file_format expected stem, inr sent);
       (me, Delete_message chat_id rid, inr a1);
       (me, Delete_message chat_id sid, inr a2)]
  ∧ threads r.2 = (threads w ++ [deletion_thread me expected])%list
  ∧ downloads r.2 = produced_in names url (downloads w)
  ∧ data_of me r.2 = ∅.
Proof.
  intros Ht Hu stem expected Hdl Hex Hrid Hrnz Hsid Hsnz Hsend Hd1 Hd2 r.
  subst stem expected r.
  unfold download_and_send_file. cbn. rewrite Ht, Hu. cbn.
  destruct (download_plan _ _ _) as [opts expected] eqn:Hplan.
  cbn in Hdl, Hex, Hsend. cbn. rewrite Hdl. cbn.
  fold (produced_in names url (downloads w)). rewrite Hex. cbn.
  fold (produced_in names url (downloads w)). rewrite Hex. cbn.
  unfold delivery in *.
  assert (Hr : (rid =? 0) = false) by lia.
  assert (Hs : (sid =? 0) = false) by lia.
  destruct (bool_decide (file_format = VStr "mp3")); cbn;
    rewrite Hsend; cbn; dict; rewrite Hrid, Hsid; cbn; rewrite Hr, Hs; cbn;
    rewrite Hd1; unfold mret, coro_ret; cbn [prog_bind]; cbn [run]; cbn;
    rewrite Hd2; cbn; dict; unfold deletion_thread;
    repeat split; unfold new_calls; cbn;
    by rewrite <- ?app_assoc, drop_app_length.
Qed.

Lemma download_delivers_and_clears_witness :
  let w := Sample.ready in
  let expected := "downloads/Lofi Beats.mp3" in
  let r := run Sample.fine 7
             (download_and_send_file 7 (VVideo Sample.lofi) (VStr "mp3") "128")
             w in
  let sent := Z.of_nat (S (clock w)) + 100 in
  r.1 = inr tt
  ∧ new_calls w r.2
    = [(7, delivery 7 Sample.lofi (VStr "mp3") expected "Lofi Beats", inr sent);
       (7, Delete_message 7 103, inr (sent + 1));
       (7, Delete_message 7 106, inr (sent + 2))]
  ∧ threads r.2 = (threads w ++ [deletion_thread 7 expected])%list
  ∧ downloads r.2
    = produced_in ["Lofi Beats.mp3"] "https://y/1" (downloads w)
  ∧ data_of 7 r.2 = ∅.
Proof.
  intros w expected r sent.
  apply (download_delivers_and_clears Sample.fine 7 7 Sample.lofi (VStr "mp3")
           "128" Sample.ready "Lofi, Beats!" "https://y/1" ["Lofi Beats.mp3"]
           103 106 sent (sent + 1) (sent + 2));
    try reflexivity; try discriminate.
Defined.

(** X13.  When the deletion of the result list fails, the deletion of the format
    prompt is not attempted: the failure is logged as a warning, and the task
    goes on to schedule the deletion of the file and to empty the
    dictionary. *)
Theorem message_cleanup_failure_is_swallowed E me chat_id (v : video)
  file_format quality w (t url : string) (names : list string) (rid sent : Z)
  (e : exn) :
  title v = Some t →
  webpage_url v = Some url →
  let stem := PyStr.safe_title t in
  let expected := (download_plan stem file_format quality).2 in
  download E (clock w) (download_plan stem file_format quality).1 url
  = (names, None) →
  fs_exists expected (produced_in names url (downloads w)) = true →
  data_of me w !! "results_message_id" = Some (VInt rid) → rid ≠ 0 →
  bot_api E (S (clock w)) me (delivery chat_id v file_format expected stem)
  = inr sent →
  bot_api E (S (S (clock w))) me (Delete_message chat_id rid) = inl e →
  let r := run E me (download_and_send_file chat_id (VVideo v) file_format
                       quality) w in
  r.1 = inr tt
  ∧ (snd <$> (fst <$> new_calls w r.2))
    = [delivery chat_id v file_format expected stem; Delete_message chat_id rid]
  ∧ last (logs r.2)
    = Some (Warning, "Could not delete one or more messages: " +:+ str_exn e)
  ∧ threads r.2 = (threads w ++ [deletion_thread me expected])%list
  ∧ data_of me r.2 = ∅.
Proof.
  intros Ht Hu stem expected Hdl Hex Hrid Hrnz Hsend Hdel r.
  subst stem expected r.
  unfold download_and_send_file. cbn. rewrite Ht, Hu. cbn.
  destruct (download_plan _ _ _) as [opts expected] eqn:Hplan.
  cbn in Hdl, Hex, Hsend. cbn. rewrite Hdl. cbn.
  fold (produced_in names url (downloads w)). rewrite Hex. cbn.
  fold (produced_in names url (downloads w)). rewrite Hex. cbn.
  unfold delivery in *.
  assert (Hr : (rid =? 0) = false) by lia.
  destruct (bool_decide (file_format = VStr "mp3")); cbn;
    rewrite Hsend; cbn; dict; rewrite Hrid; cbn; rewrite Hr; cbn;
    rewrite Hdel; cbn; dict; rewrite last_snoc; unfold deletion_thread;
    repeat split; unfold new_calls; cbn;
    by rewrite <- ?app_assoc, drop_app_length.
Qed.

Lemma message_cleanup_failure_is_swallowed_witness :
  let e := Error "Message to delete not found" in
  let E := {| bot_api := λ n me c,
                match c with
                | Delete_message _ _ => inl e
                | _ => bot_api Sample.fine n me c
                end;
              extract_info := extract_info Sample.fine;
              download := download Sample.fine;
              fetch_image := fetch_image Sample.fine;
              remove_error := remove_error Sample.fine |} in
  let w := Sample.ready in
  let expected := "downloads/Lofi Beats.mp3" in
  let r := run E 7 (download_and_send_file 7 (VVideo Sample.lofi) (VStr "mp3")
                      "128") w in
  r.1 = inr tt
  ∧ (snd <$> (fst <$> new_calls w r.2))
    = [delivery 7 Sample.lofi (VStr "mp3") expected "Lofi Beats";
       Delete_message 7 103]
  ∧ last (logs r.2)
    = Some (Warning, "Could not delete one or more messages: " +:+ str_exn e)
  ∧ threads r.2 = (threads w ++ [deletion_thread 7 expected])%list
  ∧ data_of 7 r.2 = ∅.
Proof.
  intros e E w expected.
  apply (message_cleanup_failure_is_swallowed E 7 7 Sample.lofi (VStr "mp3")
           "128" Sample.ready "Lofi, Beats!" "https://y/1" ["Lofi Beats.mp3"]
           103 (Z.of_nat (S (clock Sample.ready)) + 100) e);
    try reflexivity; try discriminate.
Defined.

(** X14.  The title and the locator of the candidate are read before the [try]
    block: when one of them is missing the task ends at once with
    [KeyError], and nothing happens at all, not even a notice to the
    user. *)
Theorem download_without_locator E me chat_id (v : video) file_format
  quality w :
  title v = None ∨ webpage_url v = None →
  let r := run E me (download_and_send_file chat_id (VVideo v) file_format
                       quality) w in
  r.2 = w
  ∧ r.1 = inl (KeyError (match title v with Some _ => "webpage_url" | None => "title" end)).
Proof.
  intros Hmiss r. subst r. unfold download_and_send_file. cbn.
  destruct (title v) as [t|]; cbn; [|done].
  destruct Hmiss as [Hmiss|Hmiss]; [done|]. by rewrite Hmiss.
Qed.

Lemma download_without_locator_witness :
  let v := {| title := Some "Jazz"; duration := None; webpage_url := None;
              thumbnail := None |} in
  let r := run Sample.fine 7 (download_and_send_file 7 (VVideo v) (VStr "mp3")
                                "128") Sample.ready in
  r.2 = Sample.ready
  ∧ r.1 = inl (KeyError (match title v with Some _ => "webpage_url" | None => "title" end)).
Proof.
  intros v.
  apply (download_without_locator Sample.fine 7 7 v (VStr "mp3") "128"
           Sample.ready).
  by right.
Defined.

(** ** A title without letters or digits *)

Lemma rstrip_all_space (l : list ascii) :
  Forall (λ c, PyStr.isspace c = true) l → PyStr.rstrip PyStr.isspace l = [].
Proof.
  induction 1 as [|c l Hc Hl IH]; [done|]. simpl. by rewrite IH, Hc.
Qed.

Lemma safe_title_empty (t : string) :
  Forall (λ c, PyStr.isalnum c = false) (PyStr.chars t) →
  PyStr.safe_title t = "".
Proof.
  intros Ht. unfold PyStr.safe_title, PyStr.safe_title_chars.
  rewrite rstrip_all_space; [done|].
  apply Forall_forall. intros c Hc.
  apply list_elem_of_filter in Hc as [Hkeep Hc].
  rewrite Forall_forall in Ht. rewrite (Ht c Hc) in Hkeep. done.
Qed.

Lemma startswith_empty (f : string) : PyStr.startswith f "" = true.
Proof. unfold PyStr.startswith. by destruct f. Qed.



(** ** The download, when it goes wrong after the producer has returned *)

(** X16.  When the producer returns without an error and has left neither the
    expected file nor any file whose name starts with the stem, the task
    treats it as a failure: the user gets the notice with the text of the
    [FileNotFoundError], nothing is delivered, removed or scheduled, and the
    dictionary is as it was. *)
Theorem download_without_output E me chat_id (v : video) file_format
  quality w (t url : string) (names : list string) :
  title v = Some t →
  webpage_url v = Some url →
  let stem := PyStr.safe_title t in
  download E (clock w) (download_plan stem file_format quality).1 url
  = (names, None) →
  fs_exists (download_plan stem file_format quality).2
            (produced_in names url (downloads w)) = false →
  List.find (λ f, PyStr.startswith f stem)
            (produced_in names url (downloads w)).*1 = None →
  let r := run E me (download_and_send_file chat_id (VVideo v) file_format
                       quality) w in
  ∃ answer,
    new_calls w r.2
    = [(me, failure_notice chat_id t
              (FileNotFoundError "Downloaded file could not be found."),
        answer)]
    ∧ r.1 = match answer with inl e => inl e | inr _ => inr tt end
    ∧ downloads r.2 = produced_in names url (downloads w)
    ∧ user_data r.2 = user_data w
    ∧ threads r.2 = threads w.
Proof.
  intros Ht Hu stem Hdl Hex Hfind r. subst stem r.
  unfold download_and_send_file. cbn. rewrite Ht, Hu. cbn.
  destruct (download_plan _ _ _) as [opts expected] eqn:Hplan.
  cbn in Hdl, Hex. cbn. rewrite Hdl. cbn.
  fold (produced_in names url (downloads w)). rewrite Hex. cbn.
  rewrite bool_decide_true by done.
  fold (produced_in names url (downloads w)). rewrite Hfind. cbn.
  fold (failure_notice chat_id t
          (FileNotFoundError "Downloaded file could not be found.")).
  destruct (bot_api _ _ _ _) as [e'|sent] eqn:Hsend; cbn.
  { eexists. split; [by apply new_calls_app|]. done. }
  exists (inr sent).
  destruct (bool_decide (expected = "")) eqn:Hempty; cbn.
  { split; [by apply new_calls_app|]. done. }
  fold (produced_in names url (downloads w)). rewrite Hex. cbn.
  split; [by apply new_calls_app|]. done.
Qed.

Lemma download_without_output_witness :
  let E := {| bot_api := bot_api Sample.fine;
              extract_info := extract_info Sample.fine;
              download := λ _ _ _, ([], None);
              fetch_image := fetch_image Sample.fine;
              remove_error := remove_error Sample.fine |} in
  let w := Sample.ready in
  let r := run E 7 (download_and_send_file 7 (VVideo Sample.lofi) (VStr "mp3")
                      "128") w in
  ∃ answer,
    new_calls w r.2
    = [(7, failure_notice 7 "Lofi, Beats!"
             (FileNotFoundError "Downloaded file could not be found."),
        answer)]
    ∧ r.1 = match answer with inl e => inl e | inr _ => inr tt end
    ∧ downloads r.2 = produced_in [] "https://y/1" (downloads w)
    ∧ user_data r.2 = user_data w
    ∧ threads r.2 = threads w.
Proof.
  intros E w.
  apply (download_without_output E 7 7 Sample.lofi (VStr "mp3") "128"
           Sample.ready "Lofi, Beats!" "https://y/1" []); reflexivity.
Defined.

(** X17.  When the file is there and its delivery fails, and the failure notice
    then goes through, the task removes the file at once: no deletion is
    scheduled, the result list and the format prompt are not deleted, and
    the dictionary is as it was. *)
Theorem delivery_failure_removes_file E me chat_id (v : video) file_format
  quality w (t url : string) (names : list string) (e : exn) (a : Z) :
  title v = Some t →
  webpage_url v = Some url →
  let stem := PyStr.safe_title t in
  let expected := (download_plan stem file_format quality).2 in
  download E (clock w) (download_plan stem file_format quality).1 url
  = (names, None) →
  fs_exists expected (produced_in names url (downloads w)) = true →
  bot_api E (S (clock w)) me (delivery chat_id v file_format expected stem)
  = inl e →
  bot_api E (S (S (clock w))) me (failure_notice chat_id t e) = inr a →
  remove_error E (S (S (S (clock w)))) expected = None →
  let r := run E me (download_and_send_file chat_id (VVideo v) file_format
                       quality) w in
  r.1 = inr tt
  ∧ new_calls w r.2
    = [(me, delivery chat_id v file_format expected stem, inl e);
       (me, failure_notice chat_id t e, inr a)]
  ∧ downloads r.2 = fs_delete expected (produced_in names url (downloads w))
  ∧ fs_exists expected (downloads r.2) = false
  ∧ user_data r.2 = user_data w
  ∧ threads r.2 = threads w.
Proof.
  intros Ht Hu stem expected Hdl Hex Hsend Hnotice Hrm r.
  subst stem expected r.
  unfold download_and_send_file. cbn. rewrite Ht, Hu. cbn.
  destruct (download_plan _ _ _) as [opts expected] eqn:Hplan.
  cbn in Hdl, Hex, Hsend, Hrm. cbn. rewrite Hdl. cbn.
  fold (produced_in names url (downloads w)). rewrite Hex. cbn.
  fold (produced_in names url (downloads w)). rewrite Hex. cbn.
  assert (Hne : bool_decide (expected = "") = false).
  { apply bool_decide_eq_false. intros ->. by vm_compute in Hex. }
  unfold delivery, failure_notice in *.
  destruct (bool_decide (file_format = VStr "mp3")); cbn;
    rewrite Hsend; cbn; rewrite Hnotice; cbn; rewrite Hne; cbn;
    fold (produced_in names url (downloads w)); rewrite Hex; cbn;
    fold (produced_in names url (downloads w)); rewrite Hex; cbn;
    rewrite Hrm; cbn; fold (produced_in names url (downloads w));
    rewrite fs_exists_delete; repeat split;
    unfold new_calls; cbn; by rewrite <- ?app_assoc, drop_app_length.
Qed.

Lemma delivery_failure_removes_file_witness :
  let e := Error "Request Entity Too Large" in
  let E := {| bot_api := λ n me c,
                match c with
                | Send_audio _ _ _ _ => inl e
                | _ => bot_api Sample.fine n me c
                end;
              extract_info := extract_info Sample.fine;
              download := download Sample.fine;
              fetch_image := fetch_image Sample.fine;
              remove_error := remove_error Sample.fine |} in
  let w := Sample.ready in
  let expected := "downloads/Lofi Beats.mp3" in
  let a := Z.of_nat (S (S (clock w))) + 100 in
  let r := run E 7 (download_and_send_file 7 (VVideo Sample.lofi) (VStr "mp3")
                      "128") w in
  r.1 = inr tt
  ∧ new_calls w r.2
    = [(7, delivery 7 Sample.lofi (VStr "mp3") expected "Lofi Beats", inl e);
       (7, failure_notice 7 "Lofi, Beats!" e, inr a)]
  ∧ downloads r.2
    = fs_delete expected
        (produced_in ["Lofi Beats.mp3"] "https://y/1" (downloads w))
  ∧ fs_exists expected (downloads r.2) = false
  ∧ user_data r.2 = user_data w
  ∧ threads r.2 = threads w.
Proof.
  intros e E w expected a.
  apply (delivery_failure_removes_file E 7 7 Sample.lofi (VStr "mp3") "128"
           Sample.ready "Lofi, Beats!" "https://y/1" ["Lofi Beats.mp3"] e a);
    reflexivity.
Defined.

(** ** The scheduled deletion *)

(** X18.  [schedule_file_deletion] never lets an exception escape and touches
    nothing but the file and the log: a file that is there is removed (or,
    when the removal fails, left, with the failure logged); a file that is
    gone only gives a warning. *)
Theorem scheduled_deletion_never_raises E me path delay w :
  let r := run E me (schedule_file_deletion path delay) w in
  r.1 = inr tt
  ∧ user_data r.2 = user_data w ∧ threads r.2 = threads w
  ∧ calls r.2 = calls w
  ∧ (fs_exists path (downloads w) = false →
     downloads r.2 = downloads w
     ∧ last (logs r.2)
       = Some (Warning, "File not found for deletion: " +:+ path))
  ∧ (fs_exists path (downloads w) = true →
     match remove_error E (clock w) path with
     | None =>
         downloads r.2 = fs_delete path (downloads w)
         ∧ fs_exists path (downloads r.2) = false
         ∧ last (logs r.2)
           = Some (Info, "Successfully deleted temporary file: "
                         +:+ PyStr.basename path)
     | Some e =>
         downloads r.2 = downloads w
         ∧ ∃ level msg, last (logs r.2) = Some (level, msg) ∧ level ≠ Info
     end).
Proof.
  intros r. subst r. unfold schedule_file_deletion. cbn.
  destruct (fs_exists path (downloads w)) eqn:Hex; cbn.
  - destruct (remove_error E (clock w) path) as [e|] eqn:Hrm; cbn.
    + destruct e; cbn; (do 4 (split; [done|])); (split; [done|]);
        intros _; (split; [done|]); rewrite last_snoc; by eexists _, _.
    + do 4 (split; [done|]). split; [done|]. intros _.
      rewrite last_snoc. by rewrite fs_exists_delete.
  - do 4 (split; [done|]). split; [|done]. intros _. by rewrite last_snoc.
Qed.

Lemma scheduled_deletion_never_raises_witness :
  let w := Sample.searched in
  let path := collage_jpg in
  let r := run Sample.fine 7 (schedule_file_deletion path 120) w in
  r.1 = inr tt
  ∧ user_data r.2 = user_data w ∧ threads r.2 = threads w
  ∧ calls r.2 = calls w
  ∧ (fs_exists path (downloads w) = false →
     downloads r.2 = downloads w
     ∧ last (logs r.2)
       = Some (Warning, "File not found for deletion: " +:+ path))
  ∧ (fs_exists path (downloads w) = true →
     match remove_error Sample.fine (clock w) path with
     | None =>
         downloads r.2 = fs_delete path (downloads w)
         ∧ fs_exists path (downloads r.2) = false
         ∧ last (logs r.2)
           = Some (Info, "Successfully deleted temporary file: "
                         +:+ PyStr.basename path)
     | Some e =>
         downloads r.2 = downloads w
         ∧ ∃ level msg, last (logs r.2) = Some (level, msg) ∧ level ≠ Info
     end).
Proof.
  exact (scheduled_deletion_never_raises Sample.fine 7 collage_jpg 120
           Sample.searched).
Defined.

(** X19.  Of two scheduled deletions of one path, the one that runs first removes
    the file; the other finds nothing, logs a warning and ends normally. *)
Theorem second_deletion_finds_nothing E me1 me2 path d1 d2 w :
  fs_exists path (downloads w) = true →
  remove_error E (clock w) path = None →
  let w1 := (run E me1 (schedule_file_deletion path d1) w).2 in
  let r2 := run E me2 (schedule_file_deletion path d2) w1 in
  fs_exists path (downloads w1) = false
  ∧ r2.1 = inr tt
  ∧ downloads r2.2 = downloads w1
  ∧ last (logs r2.2) = Some (Warning, "File not found for deletion: " +:+ path).
Proof.
  intros Hex Hrm w1 r2. subst r2 w1. unfold schedule_file_deletion. cbn.
  rewrite Hex. cbn. rewrite Hrm. cbn. rewrite fs_exists_delete. cbn.
  by rewrite last_snoc.
Qed.

Lemma second_deletion_finds_nothing_witness :
  let w := Sample.searched in
  let w1 := (run Sample.fine 7 (schedule_file_deletion collage_jpg 120) w).2 in
  let r2 := run Sample.fine 8 (schedule_file_deletion collage_jpg 120) w1 in
  fs_exists collage_jpg (downloads w1) = false
  ∧ r2.1 = inr tt
  ∧ downloads r2.2 = downloads w1
  ∧ last (logs r2.2)
    = Some (Warning, "File not found for deletion: " +:+ collage_jpg).
Proof.
  apply (second_deletion_finds_nothing Sample.fine 7 8 collage_jpg 120 120
           Sample.searched); reflexivity.
Defined.

(** ** The canvas of the collage *)

Lemma frame_paste_tiles (wd ht : Z) (images : list image) (c : canvas) :
  canvas_size (paste_tiles wd ht images c) = canvas_size c
  ∧ canvas_color (paste_tiles wd ht images c) = canvas_color c.
Proof.
  unfold paste_tiles. generalize (imap (λ i img, (i, img)) images).
  intros l. revert c. induction l as [|[i img] l IH]; intros c; simpl; [done|].
  destruct (IH (paste c (resize img (wd, ht)) (Z.of_nat i * wd, 0))) as [-> ->].
  done.
Qed.


(** ** What a coroutine does on every path *)

Lemma every_mono {R} (φ φ' : obs → bool) (Q Q' : R → Prop) (p : prog R) :
  (∀ o, φ o = true → φ' o = true) → (∀ r, Q r → Q' r) →
  every φ Q p → every φ' Q' p.
Proof.
  intros Hφ HQ. induction p as [r|X e k IH]; cbn; [by apply HQ|].
  intros Hp x. destruct (Hp x) as [Hx Hk]. split; [by apply Hφ|]. by apply IH.
Qed.

Lemma every_bind {A B} φ (Q : A → Prop) (Q' : B → Prop) (m : prog A)
  (f : A → prog B) :
  every φ Q m → (∀ a, Q a → every φ Q' (f a)) → every φ Q' (prog_bind m f).
Proof.
  intros Hm Hf. induction m as [r|X e k IH]; cbn in *; [by apply Hf|].
  intros x. destruct (Hm x) as [Hx Hk]. split; [done|]. by apply IH.
Qed.

Lemma every_mbind {A B} φ (P : A → Prop) (P' : B → Prop) (m : coro A)
  (f : A → coro B) :
  every φ (returns P) m → (∀ a, P a → every φ (returns P') (f a)) →
  every φ (returns P') (m ≫= f).
Proof.
  intros Hm Hf. apply (every_bind _ (returns P)); [done|].
  intros [e|a] Ha; [done|]. by apply Hf.
Qed.

Lemma every_try_except {A} φ (P : A → Prop) (body : coro A)
  (handler : exn → coro A) :
  every φ (returns P) body → (∀ e, every φ (returns P) (handler e)) →
  every φ (returns P) (try_except body handler).
Proof.
  intros Hb Hh. apply (every_bind _ (returns P)); [done|].
  intros [e|a] Ha; [apply Hh|done].
Qed.

Lemma every_attempt {A} φ (P : A → Prop) (body : coro A) :
  every φ (returns P) body → every φ (returns (returns P)) (attempt body).
Proof. intros Hb. apply (every_bind _ (returns P)); [done|]. by intros [e|a] Ha. Qed.

Lemma every_anything {A} φ (P : A → Prop) (p : coro A) :
  every φ (returns P) p → every φ anything p.
Proof. by apply every_mono. Qed.

(** The steps that need no thought: an effect at the head is checked, its
    answer is taken apart where the program looks at it. *)
Ltac paths :=
  cbn;
  repeat first
    [ exact I | reflexivity | assumption | split | intros ?
    | match goal with H : under_downloads _ = true |- _ => rewrite H end
    | match goal with |- returns _ ?x => destruct x end
    | match goal with
      | |- context [match ?x with _ => _ end] => destruct x eqn:?; cbn
      end ].

Lemma every_fetch_thumbnails thumbnail_urls images :
  every effect_ok (returns anything) (fetch_thumbnails thumbnail_urls images).
Proof.
  revert images.
  induction thumbnail_urls as [|[url|] rest IH]; intros images;
    cbn [fetch_thumbnails]; [exact I| |done].
  destruct (bool_decide (url = "")); [done|].
  apply (every_mbind _ anything); [|done].
  apply every_try_except; [paths|intros e; paths].
Qed.

Lemma every_create_thumbnail_collage thumbnail_urls :
  every effect_ok (returns (λ path, path = collage_jpg))
        (create_thumbnail_collage thumbnail_urls).
Proof.
  unfold create_thumbnail_collage.
  apply (every_mbind _ anything); [apply every_fetch_thumbnails|].
  intros images _. destruct (bool_decide (images = [])); paths.
Qed.

Lemma every_search_youtube chat_id text :
  every effect_ok (returns anything) (search_youtube chat_id text).
Proof.
  unfold search_youtube. destruct (bool_decide (text = "")); [exact I|].
  apply (every_mbind _ anything); [paths|]. intros pm _.
  apply every_try_except; [|intros e; paths].
  apply (every_mbind _ anything); [paths|]. intros sr _.
  destruct (default [] sr) as [|v l]; [paths|].
  rewrite bool_decide_eq_false_2 by done.
  apply (every_mbind _ anything); [paths|]. intros _ _.
  apply (every_mbind _ (λ path, path = collage_jpg));
    [apply every_create_thumbnail_collage|].
  intros path ->. paths.
Qed.

Lemma every_handle_video_selection chat_id message_id text :
  every effect_ok (returns anything)
        (handle_video_selection chat_id message_id text).
Proof. unfold handle_video_selection, ud_get, ud_item, video_item. paths. Qed.

Lemma every_handle_user_response chat_id message_id text :
  every effect_ok (returns anything)
        (handle_user_response chat_id message_id text).
Proof.
  unfold handle_user_response.
  apply (every_mbind _ anything); [unfold ud_get; paths|]. intros state _.
  destruct (negb (truthy state)); [apply every_search_youtube|].
  destruct (bool_decide _); [apply every_handle_video_selection|exact I].
Qed.

Lemma every_start mention_html :
  every effect_ok (returns anything) (start mention_html).
Proof. unfold start. paths. Qed.

Lemma every_button_callback_handler data :
  every effect_ok (returns anything) (button_callback_handler data).
Proof. unfold button_callback_handler. paths. Qed.

Lemma every_quality_button_handler chat_id data :
  every effect_ok (returns anything) (quality_button_handler chat_id data).
Proof. unfold quality_button_handler, ud_item, video_item. paths. Qed.

Lemma every_schedule_file_deletion path delay :
  under_downloads path = true →
  every effect_ok (returns anything) (schedule_file_deletion path delay).
Proof. intros Hp. unfold schedule_file_deletion. paths. Qed.

Lemma under_downloads_join f :
  under_downloads (PyStr.path_join TEMP_DOWNLOAD_DIR f) = true.
Proof. unfold under_downloads. by rewrite in_downloads_join. Qed.

Lemma every_locate_output output_path safe_title :
  under_downloads output_path = true →
  every effect_ok (returns (λ path, under_downloads path = true))
        (locate_output output_path safe_title).
Proof.
  intros Hp. unfold locate_output. cbn. intros found. split; [done|].
  destruct found; cbn; [done|]. intros listing. split; [done|].
  destruct (List.find _ listing) as [f|]; [|exact I].
  destruct (negb (bool_decide (f = ""))); [|exact I].
  apply under_downloads_join.
Qed.

Lemma every_cleanup_messages chat_id :
  every effect_ok (returns anything) (cleanup_messages chat_id).
Proof. unfold cleanup_messages, ud_get. paths. Qed.

Lemma every_download_failed chat_id video_title output_path e :
  under_downloads output_path = true →
  every effect_ok (returns anything)
        (download_failed chat_id video_title output_path e).
Proof. intros Hp. unfold download_failed. paths. Qed.

Lemma every_deliver chat_id video_info file_format safe_title output_path :
  under_downloads output_path = true →
  every effect_ok (returns anything)
        (deliver chat_id video_info file_format safe_title output_path).
Proof.
  intros Hp. unfold deliver.
  apply (every_mbind _ anything); [paths|]. intros _ _.
  apply (every_mbind _ anything); [paths|]. intros _ _.
  apply (every_mbind _ anything); [apply every_cleanup_messages|]. intros _ _.
  paths.
Qed.

Lemma every_download_and_send_file chat_id video_info file_format quality :
  every effect_ok (returns anything)
        (download_and_send_file chat_id video_info file_format quality).
Proof.
  unfold download_and_send_file.
  apply (every_mbind _ anything); [unfold video_item; paths|].
  intros video_title _.
  apply (every_mbind _ anything); [unfold video_item; paths|]. intros url _.
  destruct (download_plan _ _ _) as [opts output_path] eqn:Hplan.
  assert (Hp : under_downloads output_path = true).
  { unfold download_plan in Hplan.
    destruct (bool_decide _); injection Hplan as _ <-;
      apply under_downloads_join. }
  apply (every_mbind _ (returns (λ path, under_downloads path = true))).
  - apply every_attempt. apply (every_mbind _ anything); [paths|].
    intros _ _. by apply every_locate_output.
  - intros [e|path] Hpath; [by apply every_download_failed|].
    apply every_try_except; [by apply every_deliver|].
    intros e. by apply every_download_failed.
Qed.

Lemma every_start_task t :
  task_ok t = true → every effect_ok anything (start_task t).
Proof.
  destruct t as [path delay|chat_id video_info file_format quality];
    unfold start_task; intros Ht; apply (every_anything _ anything).
  - apply andb_prop in Ht as [Hp _]. by apply every_schedule_file_deletion.
  - apply every_download_and_send_file.
Qed.

Lemma every_dispatch u p :
  dispatch u = Some p → every effect_ok anything p.
Proof.
  destruct u as [chat_id mention|chat_id message_id text|chat_id data]; cbn.
  - intros [= <-]. apply (every_anything _ anything), every_start.
  - intros [= <-]. apply (every_anything _ anything), every_handle_user_response.
  - destruct (matches_format data);
      [intros [= <-]; apply (every_anything _ anything),
                        every_button_callback_handler|].
    destruct (matches_quality data); [|done].
    intros [= <-]. apply (every_anything _ anything), every_quality_button_handler.
Qed.

(** ** What holds in every world the event loop reaches *)

Lemma data_of_other user me d w :
  user ≠ me →
  data_of user (set_user_data (λ m, <[me := d]> m) w) = data_of user w.
Proof. intros Hne. unfold data_of. simpl. by rewrite lookup_insert_ne. Qed.

Lemma well_formed_insert key v d :
  well_formed d → entry_ok key v = true → well_formed (<[key := v]> d).
Proof.
  intros Hd Hv key' v'. destruct (decide (key' = key)) as [->|Hne].
  - rewrite lookup_insert_eq. by intros [= <-].
  - rewrite lookup_insert_ne by done. apply Hd.
Qed.

Lemma sessions_store me d w :
  sessions_well_formed w → well_formed d →
  sessions_well_formed (set_user_data (λ m, <[me := d]> m) w).
Proof.
  intros Hw Hd user. destruct (decide (user = me)) as [->|Hne].
  - by rewrite data_of_store.
  - rewrite data_of_other by done. apply Hw.
Qed.

Lemma sessions_same w w' :
  user_data w' = user_data w → sessions_well_formed w → sessions_well_formed w'.
Proof. intros Heq Hw user. rewrite (data_of_eq user w w' Heq). apply Hw. Qed.

Lemma handle_invariant E me {X} (e : eff X) w :
  invariant w → effect_ok (Obs e (handle E me e w).1) = true →
  invariant (handle E me e w).2.
Proof.
  intros [Hd Ht] He. apply andb_prop in He as [Hs Hf].
  destruct e; simpl in *; try (split; [by eapply sessions_same|done]).
  - split; [|done]. apply sessions_store; [done|].
    by apply well_formed_insert; [apply Hd|].
  - split; [|done]. apply sessions_store; [done|]. intros key v.
    by rewrite lookup_empty.
  - destruct (download E (clock w) opts url) as [names err]. by split.
  - destruct (fs_exists path (downloads w)); [|by split].
    destruct (remove_error E (clock w) path); by split.
  - split; [done|]. apply Forall_app. split; [done|].
    apply Forall_singleton. split; [by apply every_start_task|done].
Qed.

Lemma advance_invariant E me {R} (Q : R → Prop) (p : prog R) w :
  every effect_ok Q p → invariant w →
  every effect_ok Q (advance E me p w).1 ∧ invariant (advance E me p w).2.
Proof.
  revert w. induction p as [r|X e k IH]; intros w Hp Hw; [done|].
  cbn [advance]. destruct (is_await e); [done|].
  destruct (handle E me e w) as [x w'] eqn:Hh.
  destruct (Hp x) as [Hx Hk]. apply IH; [done|].
  pose proof (handle_invariant E me e w Hw) as Hi. rewrite Hh in Hi.
  apply Hi. destruct (Hp (handle E me e w).1) as [Hx' _]. by rewrite Hh in Hx'.
Qed.

Lemma resume_invariant E me {R} (Q : R → Prop) (p : prog R) w :
  every effect_ok Q p → invariant w →
  every effect_ok Q (resume E me p w).1 ∧ invariant (resume E me p w).2.
Proof.
  destruct p as [r|X e k]; intros Hp Hw; [done|]. cbn [resume].
  destruct (handle E me e w) as [x w'] eqn:Hh.
  destruct (Hp x) as [Hx Hk]. apply advance_invariant; [done|].
  pose proof (handle_invariant E me e w Hw) as Hi. rewrite Hh in Hi.
  apply Hi. destruct (Hp (handle E me e w).1) as [Hx' _]. by rewrite Hh in Hx'.
Qed.

Lemma step_invariant E a w w' :
  step E a w = Some w' → invariant w → invariant w'.
Proof.
  intros Hstep Hw. destruct a as [u|i]; simpl in Hstep.
  - destruct (existsb is_handler (threads w)); [done|].
    destruct (dispatch u) as [p|] eqn:Hu; injection Hstep as <-; [|done].
    destruct Hw as [Hd Ht]. split; [done|]. apply Forall_app. split; [done|].
    apply Forall_singleton. split; [by apply every_dispatch in Hu|done].
  - destruct (threads w !! i) as [t|] eqn:Hi; [|done]. simpl in Hstep.
    assert (Hti : thread_ok t).
    { destruct Hw as [_ Ht]. by eapply Forall_lookup_1. }
    destruct Hti as [Hcode Horigin].
    destruct (resume_invariant E (owner t) anything (code t) w Hcode Hw)
      as [Hp [Hd' Ht']].
    destruct (resume E (owner t) (code t) w) as [p w1]. simpl in *.
    destruct p as [r|X e k]; injection Hstep as <-.
    + split; [done|]. simpl. by apply Forall_delete.
    + split; [done|]. simpl. by apply Forall_insert.
Qed.

Lemma steps_invariant E acts w w' :
  steps E acts w = Some w' → invariant w → invariant w'.
Proof.
  revert w. induction acts as [|a acts IH]; intros w; simpl.
  - by intros [= <-].
  - destruct (step E a w) as [w1|] eqn:Hstep; [|done]. simpl.
    intros Hrest Hw. apply (IH w1 Hrest). by eapply step_invariant.
Qed.

Lemma invariant_empty_world : invariant empty_world.
Proof.
  split; [|by apply Forall_nil]. intros user key v.
  unfold data_of. simpl. by rewrite lookup_empty.
Qed.

(** X21.  Whatever the updates, the answers of the environment and the order in
    which the coroutines run, the dictionary of every user keeps its layout:
    only the six keys of the source, each with the kind of value the source
    reads back.  In particular the state is absent, [None] or
    [awaiting_video_selection], so that [handle_user_response] always takes
    one of its two branches: no text message is dropped silently. *)
Theorem reachable_sessions_are_well_formed E acts w :
  steps E acts empty_world = Some w →
  ∀ user,
    well_formed (data_of user w)
    ∧ let state := default VNone (data_of user w !! "state") in
      truthy state = false ∨ state = awaiting_video_selection.
Proof.
  intros Hsteps user.
  destruct (steps_invariant _ _ _ _ Hsteps invariant_empty_world) as [Hd _].
  split; [apply Hd|]. simpl.
  destruct (data_of user w !! "state") as [v|] eqn:Hs; [|by left].
  apply Hd in Hs. cbn in Hs. apply orb_prop in Hs as [H|H];
    apply bool_decide_eq_true in H as ->; [by left|by right].
Qed.

Lemma reachable_sessions_are_well_formed_witness :
  match steps Sample.fine Sample.clear_during_search empty_world with
  | Some w =>
      ∀ user,
        well_formed (data_of user w)
        ∧ let state := default VNone (data_of user w !! "state") in
          truthy state = false ∨ state = awaiting_video_selection
  | None => False
  end.
Proof.
  destruct (steps Sample.fine Sample.clear_during_search empty_world)
    as [w|] eqn:Hsteps.
  - exact (reachable_sessions_are_well_formed _ _ _ Hsteps).
  - vm_compute in Hsteps. discriminate Hsteps.
Defined.

(** X22.  Whatever the updates, the answers and the interleaving, every deletion
    that waits in the event loop is the deletion of a file of [downloads/],
    after 120 seconds. *)
Theorem scheduled_deletions_are_of_downloads E acts w t path delay :
  steps E acts empty_world = Some w →
  t ∈ threads w →
  origin_of t = Background (Schedule_file_deletion path delay) →
  delay = 120 ∧ is_Some (in_downloads path).
Proof.
  intros Hsteps Hin Ho.
  destruct (steps_invariant _ _ _ _ Hsteps invariant_empty_world) as [_ Ht].
  rewrite Forall_forall in Ht. destruct (Ht t Hin) as [_ Hor].
  rewrite Ho in Hor. cbn in Hor. apply andb_prop in Hor as [Hp Hd].
  split; [by apply Z.eqb_eq|].
  unfold under_downloads in Hp. by destruct (in_downloads path).
Qed.

Lemma scheduled_deletions_are_of_downloads_witness :
  let w := default empty_world
             (steps Sample.fine Sample.press_twice empty_world) in
  let t := default (deletion_thread 7 collage_jpg) (threads w !! 0%nat) in
  steps Sample.fine Sample.press_twice empty_world = Some w
  ∧ t ∈ threads w
  ∧ origin_of t = Background (Schedule_file_deletion collage_jpg 120)
  ∧ 120 = 120 ∧ is_Some (in_downloads collage_jpg).
Proof.
  intros w t.
  assert (Hsteps : steps Sample.fine Sample.press_twice empty_world = Some w)
    by (vm_compute; reflexivity).
  assert (Hin : t ∈ threads w).
  { apply list_elem_of_lookup. exists 0%nat. vm_compute. reflexivity. }
  assert (Ho : origin_of t = Background (Schedule_file_deletion collage_jpg 120))
    by (vm_compute; reflexivity).
  split; [done|]. split; [done|]. split; [done|].
  exact (scheduled_deletions_are_of_downloads Sample.fine Sample.press_twice
           w t collage_jpg 120 Hsteps Hin Ho).
Defined.
